(** * Session, quota and credential core of the chat front-end

    A shallow embedding of the state-handling code of the Streamlit
    front-end: [utils/rate_limit.py], [utils/session.py],
    [components/chat_interface.py], [components/authentication.py],
    [services/api_client.py] and [services/cognito.py].

    [st.session_state] is the ambient, dictionary-like bag every function
    reads and writes.  It is modelled as a finite map from attribute names
    to dynamically typed values; a function of the program becomes a
    computation over that map which either returns, raises a Python
    exception, or asks Streamlit to rerun the script.  The clock
    ([datetime.utcnow()]), the identifier source ([uuid.uuid4()]), the HTTP
    layer ([requests.post]) and the identity provider (boto3) are inputs. *)

From Stdlib Require Import ZArith Lia Ascii String.
From stdpp Require Import base strings gmap list pretty.

Open Scope Z_scope.

(** ** Values stored in the session *)

(** A chat message: the dictionary [{"role": ..., "content": ...}]. *)
Record chat_message := Message { role : string; content : string }.

(** The Python values the program keeps in [st.session_state].  A
    [datetime] is its number of microseconds since the epoch. *)
Inductive value :=
| VNone
| VBool (b : bool)
| VInt (n : Z)
| VStr (s : string)
| VTime (t : Z)
| VMsgs (l : list chat_message).

(** Python truthiness, as used by [if x:], [not x] and [bool(x)].
    A [datetime] is always true. *)
Definition truthy (v : value) : bool :=
  match v with
  | VNone => false
  | VBool b => b
  | VInt n => negb (n =? 0)
  | VStr s => negb (String.eqb s "")
  | VTime _ => true
  | VMsgs l => match l with [] => false | _ => true end
  end.

(** The integer behind a value in arithmetic and comparison ([bool] is a
    subclass of [int]); [None] where Python raises [TypeError]. *)
Definition as_int (v : value) : option Z :=
  match v with
  | VInt n => Some n
  | VBool b => Some (if b then 1 else 0)
  | _ => None
  end.

Abbreviation session_state := (gmap string value).

(** ** Exceptions and computations *)

(** The exception classes that occur, each a subclass of [Exception].
    The custom ones come from [utils/exceptions.py]. *)
Inductive exn :=
| AttributeError (name : string)
| KeyError (key : string)
| TypeError
| APIError (msg : string)
| RateLimitError (msg : string)
| AuthError (msg : string)
| ValidationError (msg : string)
| RequestException (msg : string)
| OtherException (msg : string).

(** How a call ends.  The session is mutated in place, so every ending
    carries the session as the call left it.  [Rerun] is
    [st.experimental_rerun()]: Streamlit unwinds the script with a control
    exception derived from [BaseException], which [except Exception] does
    not catch. *)
Inductive outcome (A : Type) :=
| Ret (a : A) (s : session_state)
| Raise (e : exn) (s : session_state)
| Rerun (s : session_state).
Arguments Ret {A} a s.
Arguments Raise {A} e s.
Arguments Rerun {A} s.

Definition final_state {A} (o : outcome A) : session_state :=
  match o with Ret _ s | Raise _ s | Rerun s => s end.

Definition M (A : Type) : Type := session_state -> outcome A.

Definition ret {A} (a : A) : M A := fun s => Ret a s.
Definition raise {A} (e : exn) : M A := fun s => Raise e s.
Definition experimental_rerun {A} : M A := fun s => Rerun s.

Definition bind {A B} (m : M A) (k : A -> M B) : M B :=
  fun s => match m s with
           | Ret a s' => k a s'
           | Raise e s' => Raise e s'
           | Rerun s' => Rerun s'
           end.

(** [try: m  except Exception as e: h e] *)
Definition try_except {A} (m : M A) (h : exn -> M A) : M A :=
  fun s => match m s with
           | Ret a s' => Ret a s'
           | Raise e s' => h e s'
           | Rerun s' => Rerun s'
           end.

Declare Scope py_scope.
Delimit Scope py_scope with py.
Notation "x <- m ;; k" := (bind m (fun x => k))
  (at level 100, m at next level, right associativity) : py_scope.
Notation "m ;;; k" := (bind m (fun _ => k))
  (at level 100, right associativity) : py_scope.
Open Scope py_scope.

(** [if c: m] with no [else]. *)
Definition when (c : bool) (m : M unit) : M unit := if c then m else ret tt.

(** *** Access to [st.session_state] *)

(** ["name" in st.session_state] *)
Definition contains (name : string) : M bool :=
  fun s => Ret (bool_decide (is_Some (s !! name))) s.

(** [st.session_state.name]; a missing attribute raises [AttributeError]. *)
Definition getattr (name : string) : M value :=
  fun s => match s !! name with
           | Some v => Ret v s
           | None => Raise (AttributeError name) s
           end.

(** [st.session_state.get(name, dflt)] *)
Definition get_default (name : string) (dflt : value) : M value :=
  fun s => Ret (default dflt (s !! name)) s.

(** [st.session_state.name = v] *)
Definition setattr (name : string) (v : value) : M unit :=
  fun s => Ret tt (<[name := v]> s).

(** [del st.session_state.name]; the program only deletes behind a
    membership test, so the attribute is there. *)
Definition delattr (name : string) : M unit :=
  fun s => match s !! name with
           | Some _ => Ret tt (delete name s)
           | None => Raise (AttributeError name) s
           end.

(** [current_time - start] for a stored [start]: a [timedelta] in
    microseconds, [TypeError] unless [start] is a [datetime]. *)
Definition datetime_sub (current_time : Z) (start : value) : M Z :=
  match start with
  | VTime t0 => ret (current_time - t0)
  | _ => raise TypeError
  end.

(** [v < limit] on a stored counter. *)
Definition int_lt (v : value) (limit : Z) : M bool :=
  match as_int v with
  | Some n => ret (n <? limit)
  | None => raise TypeError
  end.

(** [st.session_state.name += 1] *)
Definition incr_attr (name : string) : M unit :=
  v <- getattr name;;
  match as_int v with
  | Some n => setattr name (VInt (n + 1))
  | None => raise TypeError
  end.

(** ** Strings *)

(** Python strings are modelled by their bytes; case and white space are
    those of ASCII text. *)

(** [s.lower()] on the ASCII letters. *)
Definition ascii_lower (c : ascii) : ascii :=
  let n := N_of_ascii c in
  if ((65 <=? n) && (n <=? 90))%N then ascii_of_N (n + 32) else c.

Fixpoint lower (s : string) : string :=
  match s with
  | EmptyString => EmptyString
  | String c rest => String (ascii_lower c) (lower rest)
  end.

(** [needle in hay] *)
Definition str_in (needle hay : string) : bool :=
  bool_decide (is_Some (String.index 0 needle hay)).

(** [c.isspace()]: tab to carriage return, the four separators and the
    space. *)
Definition is_space (c : ascii) : bool :=
  let n := N_of_ascii c in
  (((9 <=? n) && (n <=? 13)) || ((28 <=? n) && (n <=? 32)))%N.

Fixpoint lstrip (s : string) : string :=
  match s with
  | EmptyString => EmptyString
  | String c rest => if is_space c then lstrip rest else s
  end.

(** [s.strip()] *)
Definition strip (s : string) : string :=
  String.rev (lstrip (String.rev (lstrip s))).

(** [s.replace(c, by)] for a one character [c]. *)
Fixpoint replace_char (c : ascii) (by_ : string) (s : string) : string :=
  match s with
  | EmptyString => EmptyString
  | String d rest =>
      (if Ascii.eqb c d then by_ else String d EmptyString)
      +:+ replace_char c by_ rest
  end.

(** ** Settings ([utils/config.py]) *)

Record Settings := {
  API_URL : string;
  ANONYMOUS_RATE_LIMIT : Z;
  AUTHENTICATED_RATE_LIMIT : Z;
  RATE_LIMIT_WINDOW_HOURS : Z;
  CLIENT_VERSION : string
}.

(** The defaults of the [Field] declarations; [API_URL] has none and is
    given by the environment. *)
Definition default_settings (api_url : string) : Settings := {|
  API_URL := api_url;
  ANONYMOUS_RATE_LIMIT := 10;
  AUTHENTICATED_RATE_LIMIT := 50;
  RATE_LIMIT_WINDOW_HOURS := 1;
  CLIENT_VERSION := "1.0.0"
|}.

(** [timedelta(hours=h)] in microseconds. *)
Definition timedelta_hours (h : Z) : Z := h * 3600 * 1000000.

(** ** Rate limiting ([utils/rate_limit.py]) *)

Module RateLimit.
Section RateLimit.
Variable settings : Settings.

(** [AUTHENTICATED_RATE_LIMIT if not guest_mode else ANONYMOUS_RATE_LIMIT] *)
Definition tier_limit (guest_mode : bool) : Z :=
  if negb guest_mode then AUTHENTICATED_RATE_LIMIT settings
  else ANONYMOUS_RATE_LIMIT settings.

(** [check_rate_limit(guest_mode)], with [current_time] the value
    [datetime.utcnow()] returns in this call.  [guest_mode] is only
    used through [not guest_mode], so it is passed as its truth
    value. *)
Definition check_rate_limit (current_time : Z) (guest_mode : bool) : M bool :=
  started <- contains "rate_limit_start";;
  when (negb started)
    (setattr "rate_limit_start" (VTime current_time);;;
     setattr "questions_used" (VInt 0));;;
  let window_hours := RATE_LIMIT_WINDOW_HOURS settings in
  start <- getattr "rate_limit_start";;
  elapsed <- datetime_sub current_time start;;
  when (elapsed >? timedelta_hours window_hours)
    (setattr "rate_limit_start" (VTime current_time);;;
     setattr "questions_used" (VInt 0));;;
  let limit := tier_limit guest_mode in
  used <- getattr "questions_used";;
  int_lt used limit.

(** [increment_rate_limit()] *)
Definition increment_rate_limit (current_time : Z) : M unit :=
  guest_mode <- get_default "guest_mode" (VBool true);;
  ok <- check_rate_limit current_time (truthy guest_mode);;
  if negb ok
  then raise (RateLimitError "Rate limit exceeded. Please try again later.")
  else incr_attr "questions_used".

(** [get_rate_limit_reset_time()]: [None] when no window was started. *)
Definition get_rate_limit_reset_time : M (option Z) :=
  started <- contains "rate_limit_start";;
  if started
  then start <- getattr "rate_limit_start";;
       match start with
       | VTime t0 =>
           ret (Some (t0 + timedelta_hours (RATE_LIMIT_WINDOW_HOURS settings)))
       | _ => raise TypeError
       end
  else ret None.

(** The tier the session is in, as [increment_rate_limit] reads it. *)
Definition session_guest_mode (s : session_state) : bool :=
  truthy (default (VBool true) (s !! "guest_mode")).

(** A check or an increment, each at its own clock reading. *)
Inductive op :=
| OpCheck (current_time : Z) (guest_mode : bool)
| OpIncrement (current_time : Z).

Definition op_time (o : op) : Z :=
  match o with OpCheck t _ | OpIncrement t => t end.

(** One operation: the session it leaves, and whether it was a
    reservation that was allowed (an increment that returned). *)
Definition step (o : op) (s : session_state) : session_state * bool :=
  match o with
  | OpCheck t g => (final_state (check_rate_limit t g s), false)
  | OpIncrement t =>
      match increment_rate_limit t s with
      | Ret _ s' => (s', true)
      | Raise _ s' | Rerun s' => (s', false)
      end
  end.

(** A sequence of operations: the final session and the number of
    allowed reservations. *)
Fixpoint run_ops (ops : list op) (s : session_state) : session_state * Z :=
  match ops with
  | [] => (s, 0)
  | o :: rest =>
      let '(s1, allowed) := step o s in
      let '(s2, n) := run_ops rest s1 in
      (s2, (if allowed then 1 else 0) + n)
  end.

(** The counter, when there is one, is an integer within the limit of
    the session's tier. *)
Definition quota_ok (s : session_state) : Prop :=
  s !! "questions_used" = None \/
  exists c, s !! "questions_used" = Some (VInt c) /\
            c <= tier_limit (session_guest_mode s).

(** The session is in the window started at [t0] with [c] questions
    used. *)
Definition in_window (t0 c : Z) (s : session_state) : Prop :=
  s !! "rate_limit_start" = Some (VTime t0) /\
  s !! "questions_used" = Some (VInt c).

(** [now] does not trigger the reset of the window started at [t0]. *)
Definition same_window (t0 now : Z) : Prop :=
  now - t0 <= timedelta_hours (RATE_LIMIT_WINDOW_HOURS settings).

End RateLimit.
End RateLimit.

(** ** Session utilities ([utils/session.py]) *)

(** [st.session_state.name.append(m)]; only a list has [append]. *)
Definition list_append (name : string) (m : chat_message) : M unit :=
  v <- getattr name;;
  match v with
  | VMsgs l => setattr name (VMsgs (l ++ [m]))
  | _ => raise (AttributeError "append")
  end.

Module Session.

(** In the functions below [fresh_uuid] is the string
    [str(uuid.uuid4())] evaluates to if this call reaches it, and
    [now] the reading of [datetime.utcnow()]. *)

Definition initialize_session_state (fresh_uuid : string) (now : Z) : M unit :=
  initialized <- contains "initialized";;
  when (negb initialized)
    (setattr "initialized" (VBool true);;;
     setattr "session_id" (VStr fresh_uuid);;;
     setattr "messages" (VMsgs []);;;
     setattr "questions_used" (VInt 0);;;
     setattr "last_reset_time" (VTime now);;;
     setattr "guest_mode" (VBool true)).

Definition get_session_id (fresh_uuid : string) : M value :=
  present <- contains "session_id";;
  when (negb present) (setattr "session_id" (VStr fresh_uuid));;;
  getattr "session_id".

Definition reset_session (fresh_uuid : string) (now : Z) : M unit :=
  setattr "messages" (VMsgs []);;;
  setattr "session_id" (VStr fresh_uuid);;;
  setattr "questions_used" (VInt 0);;;
  setattr "last_reset_time" (VTime now).

Definition add_message_to_history (message : chat_message) : M unit :=
  present <- contains "messages";;
  when (negb present) (setattr "messages" (VMsgs []));;;
  list_append "messages" message.

Definition get_current_messages : M value :=
  get_default "messages" (VMsgs []).

Definition increment_question_count : M unit :=
  present <- contains "questions_used";;
  when (negb present) (setattr "questions_used" (VInt 0));;;
  incr_attr "questions_used".

Section SessionLimits.
Variable settings : Settings.

(** The limit of [is_rate_limited] and [get_remaining_questions]:
    [AUTHENTICATED_RATE_LIMIT if not st.session_state.get("guest_mode")
    else ANONYMOUS_RATE_LIMIT]; a missing flag reads as [None]. *)
Definition session_limit : M Z :=
  guest_mode <- get_default "guest_mode" VNone;;
  ret (RateLimit.tier_limit settings (truthy guest_mode)).

(** [is_rate_limited()]: [questions_used >= limit]. *)
Definition is_rate_limited : M bool :=
  questions_used <- get_default "questions_used" (VInt 0);;
  limit <- session_limit;;
  match as_int questions_used with
  | Some used => ret (limit <=? used)
  | None => raise TypeError
  end.

(** [get_remaining_questions()]: [max(0, limit - questions_used)]. *)
Definition get_remaining_questions : M Z :=
  questions_used <- get_default "questions_used" (VInt 0);;
  limit <- session_limit;;
  match as_int questions_used with
  | Some used => ret (Z.max 0 (limit - used))
  | None => raise TypeError
  end.

End SessionLimits.

End Session.

(** ** The chat API client ([services/api_client.py]) *)

Module ApiClient.

(** The request handed to [requests.post]. *)
Record Headers := {
  Content_Type : string;
  X_Client_Version : string;
  X_Session_ID : value;
  Authorization : option value   (* [Some token]: "Bearer {token}" *)
}.

Record Payload := { message : string; session_id : value; guest_mode : bool }.

Record Request := {
  endpoint : string;
  json : Payload;
  headers : Headers;
  timeout : Z
}.

(** What [response.json()] finds: no JSON at all, or an object (its
    members narrowed to strings, the type [send_message] declares for
    its result). *)
Inductive Body :=
| NotJson (error : string)
| JsonObject (members : gmap string string).

Record Response := {
  status_code : Z;
  reason : string;
  text : string;
  body : Body
}.

(** How [requests.post] ends: with a [RequestException] (connection
    error, timeout, ...) whose [str] is given, or with a response. *)
Inductive PostResult :=
| PostRaises (str_e : string)
| PostReturns (response : Response).

(** [response.raise_for_status()] of the requests library: an
    [HTTPError], which is a [RequestException], for a 4xx or 5xx
    status. *)
Definition raise_for_status (url : string) (response : Response) : M unit :=
  let status := status_code response in
  if (400 <=? status) && (status <? 500)
  then raise (RequestException
                (pretty status +:+ " Client Error: " +:+ reason response
                 +:+ " for url: " +:+ url))
  else if (500 <=? status) && (status <? 600)
  then raise (RequestException
                (pretty status +:+ " Server Error: " +:+ reason response
                 +:+ " for url: " +:+ url))
  else ret tt.

(** [response.json()["response"]]: a body that is not JSON raises the
    library's [JSONDecodeError], a [RequestException] (requests 2.27
    and later); a missing member raises [KeyError]. *)
Definition json_response (response : Response) : M string :=
  match body response with
  | NotJson error => raise (RequestException error)
  | JsonObject members =>
      match members !! "response" with
      | Some r => ret r
      | None => raise (KeyError "response")
      end
  end.

(** [try: m  except RequestException as e: h (str e)] *)
Definition try_except_request {A} (m : M A) (h : string -> M A) : M A :=
  fun s => match m s with
           | Raise (RequestException str_e) s' => h str_e s'
           | o => o
           end.

Section ApiClient.
Variable settings : Settings.

(** The network: the answer [requests.post] gives to a request. *)
Variable post : Request -> PostResult.

Definition _get_headers : M Headers :=
  sid <- get_default "session_id" (VStr "");;
  token <- get_default "user_token" VNone;;
  ret {| Content_Type := "application/json";
         X_Client_Version := CLIENT_VERSION settings;
         X_Session_ID := sid;
         Authorization := if truthy token then Some token else None |}.

Definition send_message (message : string) (session_id : value)
    (guest_mode : bool) : M string :=
  let endpoint := API_URL settings +:+ "/chat" in
  headers <- _get_headers;;
  let payload := {| message := message; session_id := session_id;
                    guest_mode := guest_mode |} in
  try_except_request
    (match post {| endpoint := endpoint; json := payload;
                   headers := headers; timeout := 30 |} with
     | PostRaises str_e => raise (RequestException str_e)
     | PostReturns response =>
         if status_code response =? 429
         then raise (RateLimitError "Rate limit exceeded. Please try again later.")
         else raise_for_status endpoint response;;;
              json_response response
     end)
    (fun str_e =>
       if str_in "timeout" (lower str_e)
       then raise (APIError "Request timed out. Please try again.")
       else raise (APIError ("Failed to send message: " +:+ str_e))).

(** [_handle_response_error(response)]: always raises.  No function of
    the program calls it. *)
Definition _handle_response_error (response : Response) : M unit :=
  let error_message :=
    match body response with
    | JsonObject members => default "Unknown error occurred" (members !! "message")
    | NotJson _ =>
        if String.eqb (text response) "" then "Unknown error occurred"
        else text response
    end in
  if status_code response =? 429
  then raise (RateLimitError error_message)
  else if status_code response =? 401
  then present <- contains "user_token";;
       when present (delattr "user_token");;;
       raise (APIError "Authentication failed. Please log in again.")
  else raise (APIError ("API Error: " +:+ error_message)).

(** A stored conversation, as the history endpoint lists it. *)
Record chat_session := {
  history_session_id : string;
  created_at : string;
  history_messages : list chat_message
}.

(** How [requests.get] on the history endpoint ends.  With a response
    comes what [response.json()["sessions"]] finds in a JSON body: the
    list, or nothing when the member is missing. *)
Inductive GetResult :=
| GetRaises (str_e : string)
| GetReturns (response : Response) (sessions : option (list chat_session)).

(** The request handed to [requests.get]. *)
Record HistoryRequest := {
  history_endpoint : string;
  params_limit : Z;
  history_headers : Headers;
  history_timeout : Z
}.

Variable get : HistoryRequest -> GetResult.


End ApiClient.
End ApiClient.

(** ** The identity provider ([services/cognito.py]) *)

Module Cognito.

(** How [client.initiate_auth(AuthFlow='REFRESH_TOKEN_AUTH', ...)]
    ends: a botocore [ClientError] with its code and message, another
    exception (no connection, ...), or an authentication result. *)
Inductive InitiateAuth :=
| ClientError (code message : string)
| BotoError (message : string)
| AuthenticationResult (AccessToken : string) (ExpiresIn : Z).

Section Cognito.
(** The provider's answer to a refresh token. *)
Variable initiate_auth : value -> InitiateAuth.

(** [CognitoService.refresh_token(refresh_token)]: the dictionary it
    returns has the two keys below and no ["Username"]. *)
Definition refresh_token (refresh_token : value) : M (gmap string value) :=
  match initiate_auth refresh_token with
  | AuthenticationResult access_token expires_in =>
      ret (<["AccessToken" := VStr access_token]>
             (<["ExpiresIn" := VInt expires_in]> ∅))
  | ClientError _ error_message =>
      raise (AuthError ("Token refresh failed: " +:+ error_message))
  | BotoError message => raise (OtherException message)
  end.

(** How [client.initiate_auth(AuthFlow='USER_PASSWORD_AUTH', ...)]
    ends: a [ClientError], another exception, a response that carries a
    challenge instead of an ['AuthenticationResult'], or tokens. *)
Inductive PasswordAuth :=
| PasswordClientError (code message : string)
| PasswordBotoError (message : string)
| PasswordChallenge (name : string)
| PasswordResult (AccessToken RefreshToken : string) (ExpiresIn : Z).

Variable password_auth : string -> string -> PasswordAuth.

(** [CognitoService.authenticate(username, password)] *)
Definition authenticate (username password : string) : M (gmap string value) :=
  match password_auth username password with
  | PasswordResult access_token refresh_token expires_in =>
      ret (<["AccessToken" := VStr access_token]>
             (<["RefreshToken" := VStr refresh_token]>
                (<["ExpiresIn" := VInt expires_in]>
                   (<["Username" := VStr username]> ∅))))
  | PasswordChallenge _ => raise (KeyError "AuthenticationResult")
  | PasswordClientError error_code error_message =>
      if String.eqb error_code "NotAuthorizedException"
      then raise (AuthError "Invalid username or password")
      else if String.eqb error_code "UserNotConfirmedException"
      then raise (AuthError "Please verify your email address")
      else raise (AuthError ("Authentication failed: " +:+ error_message))
  | PasswordBotoError message => raise (OtherException message)
  end.

End Cognito.
End Cognito.

(** ** Authentication ([components/authentication.py]) *)

Module Authentication.

(** [auth_result[key]] *)
Definition subscript (auth_result : gmap string value) (key : string) : M value :=
  match auth_result !! key with
  | Some v => ret v
  | None => raise (KeyError key)
  end.

Definition is_authenticated : M bool :=
  token <- get_default "user_token" VNone;;
  ret (truthy token).

Definition get_username : M value :=
  authenticated <- is_authenticated;;
  if authenticated then get_default "username" VNone else ret VNone.

Definition get_token : M value := get_default "user_token" VNone.

Definition logout : M unit :=
  has_token <- contains "user_token";;
  when has_token (delattr "user_token");;;
  has_name <- contains "username";;
  when has_name (delattr "username");;;
  experimental_rerun.

Definition _handle_successful_auth (auth_result : gmap string value) : M unit :=
  token <- subscript auth_result "AccessToken";;
  setattr "user_token" token;;;
  name <- subscript auth_result "Username";;
  setattr "username" name;;;
  experimental_rerun.

Section Authentication.
Variable initiate_auth : value -> Cognito.InitiateAuth.

(** [AuthenticationManager.refresh_token()].  The [return False] at the
    end is reached when there is no refresh token, or when [logout]
    returns. *)
Definition refresh_token : M bool :=
  try_except
    (refresh_token <- get_default "refresh_token" VNone;;
     if truthy refresh_token
     then auth_result <- Cognito.refresh_token initiate_auth refresh_token;;
          _handle_successful_auth auth_result;;;
          ret true
     else ret false)
    (fun _ => logout;;; ret false).

Variable password_auth : string -> string -> Cognito.PasswordAuth.

(** The login form of [render_login_ui]: [submit_button] is whether the
    form was submitted in this run, [username] and [password] the text
    typed; the error of a failed login is shown on the page. *)
Definition render_login_form (submit_button : bool) (username password : string)
    : M unit :=
  if submit_button && negb (String.eqb username "") && negb (String.eqb password "")
  then try_except
         (auth_result <- Cognito.authenticate password_auth username password;;
          _handle_successful_auth auth_result)
         (fun _ => ret tt)
  else ret tt.

End Authentication.
End Authentication.

(** ** Input validation ([utils/logger.py]) *)

Module Validators.

(** The patterns are regular expressions without operators: each
    matches itself, [eval\(] matches [eval(]. *)
Definition dangerous_patterns : list string :=
  ["javascript:"; "data:"; "vbscript:"; "onload="; "onerror="; "onclick=";
   "eval("].

(** [re.search(pattern, message, re.IGNORECASE)] for such a pattern,
    which is in lower case. *)
Definition search_ignorecase (pattern message : string) : bool :=
  str_in pattern (lower message).

(** [validate_message(message)]: the sanitized message, or the
    [ValidationError] raised.  It does not look at the session. *)
Definition validate_message (message : string) : exn + string :=
  let message := strip message in
  if String.eqb message ""
  then inl (ValidationError "Message cannot be empty")
  else if (2000 <? String.length message)%nat
  then inl (ValidationError "Message too long (max 2000 characters)")
  else
    let message := replace_char ">" "&gt;" (replace_char "<" "&lt;" message) in
    if existsb (fun pattern => search_ignorecase pattern message) dangerous_patterns
    then inl (ValidationError "Message contains potentially dangerous content")
    else inr message.

End Validators.

(** ** The chat interface ([components/chat_interface.py]) *)

Module ChatInterface.

(** [st.error(...)], [st.warning(...)]: drawn on the page, which is not
    part of the model; the session is not touched. *)
Definition st_error (e : exn) : M unit := ret tt.

Definition _update_question_count : M unit :=
  present <- contains "questions_used";;
  when (negb present) (setattr "questions_used" (VInt 0));;;
  incr_attr "questions_used".

Definition _start_new_chat (fresh_uuid : string) : M unit :=
  setattr "messages" (VMsgs []);;;
  session_id <- Session.get_session_id fresh_uuid;;
  setattr "session_id" session_id;;;
  experimental_rerun.

(** [_get_remaining_questions()], with the limits written in the
    component. *)
Definition _get_remaining_questions : M Z :=
  used_questions <- get_default "questions_used" (VInt 0);;
  guest_mode <- get_default "guest_mode" (VBool true);;
  let limit := if negb (truthy guest_mode) then 50 else 10 in
  match as_int used_questions with
  | Some used => ret (Z.max 0 (limit - used))
  | None => raise TypeError
  end.

Section ChatInterface.
Variable settings : Settings.
Variable post : ApiClient.Request -> ApiClient.PostResult.

Definition _handle_user_input (fresh_uuid : string) (prompt : string)
    (guest_mode : bool) : M unit :=
  present <- contains "messages";;
  when (negb present) (setattr "messages" (VMsgs []));;;
  list_append "messages" {| role := "user"; content := prompt |};;;
  try_except
    (session_id <- Session.get_session_id fresh_uuid;;
     response <- ApiClient.send_message settings post prompt session_id guest_mode;;
     list_append "messages" {| role := "assistant"; content := response |};;;
     _update_question_count;;;
     experimental_rerun)
    (fun e => st_error e).

(** [_render_chat_input(guest_mode)]: [prompt] is what [st.chat_input]
    returned in this run, [None] when nothing was sent; the warning is
    shown on the page. *)
Definition _render_chat_input (now : Z) (fresh_uuid : string)
    (prompt : option string) (guest_mode : bool) : M unit :=
  ok <- RateLimit.check_rate_limit settings now guest_mode;;
  if negb ok then ret tt
  else match prompt with
       | Some text =>
           if negb (String.eqb text "")
           then _handle_user_input fresh_uuid text guest_mode
           else ret tt
       | None => ret tt
       end.

End ChatInterface.
End ChatInterface.

(** ** Vocabulary of the statements *)

(** A sequence of [add_message_to_history] calls. *)
Fixpoint add_all (messages : list chat_message) : M unit :=
  match messages with
  | [] => ret tt
  | m :: rest => Session.add_message_to_history m;;; add_all rest
  end.

(** The messages of the session are the list [l]: the attribute holds
    it, or is missing and [l] is empty. *)
Definition has_messages (l : list chat_message) (s : session_state) : Prop :=
  Session.get_current_messages s = Ret (VMsgs l) s.

(** The request [send_message] hands to [requests.post] when called in
    session [s]. *)
Definition request_for (settings : Settings) (message : string)
    (session_id : value) (guest_mode : bool) (s : session_state)
    : ApiClient.Request :=
  let token := default VNone (s !! "user_token") in
  {| ApiClient.endpoint := API_URL settings +:+ "/chat";
     ApiClient.json := {| ApiClient.message := message;
                          ApiClient.session_id := session_id;
                          ApiClient.guest_mode := guest_mode |};
     ApiClient.headers :=
       {| ApiClient.Content_Type := "application/json";
          ApiClient.X_Client_Version := CLIENT_VERSION settings;
          ApiClient.X_Session_ID := default (VStr "") (s !! "session_id");
          ApiClient.Authorization := if truthy token then Some token else None |};
     ApiClient.timeout := 30 |}.

(** The session identifier a submit in session [s] uses: the stored
    one, or a new one when none is stored. *)
Definition submit_session_id (fresh_uuid : string) (s : session_state) : value :=
  default (VStr fresh_uuid) (s !! "session_id").

(** The request a submit in session [s] sends. *)
Definition submit_request (settings : Settings) (fresh_uuid prompt : string)
    (guest_mode : bool) (s : session_state) : ApiClient.Request :=
  let sid := submit_session_id fresh_uuid s in
  request_for settings prompt sid guest_mode (<["session_id" := sid]> s).

(** The answers of the network on which the chat call fails: no answer,
    a 429, any other 4xx or 5xx status, or a body without a
    ["response"]. *)
Definition fails (r : ApiClient.PostResult) : bool :=
  match r with
  | ApiClient.PostRaises _ => true
  | ApiClient.PostReturns response =>
      let status := ApiClient.status_code response in
      (status =? 429) || ((400 <=? status) && (status <? 600)) ||
      match ApiClient.body response with
      | ApiClient.NotJson _ => true
      | ApiClient.JsonObject members =>
          negb (bool_decide (is_Some (members !! "response")))
      end
  end.

(** The default limits (10 questions for a guest) and a one hour
    window. *)
Definition demo_settings : Settings := default_settings "https://api.example".

Definition demo_session (t0 used : Z) : session_state :=
  <["questions_used" := VInt used]> (<["rate_limit_start" := VTime t0]> ∅).

(** A logged-in session, and the answers of a chat API that rejects its
    token (401) or throttles it (429). *)
Definition logged_in_session : session_state :=
  <["user_token" := VStr "expired-token"]>
    (<["username" := VStr "alice"]>
       (<["session_id" := VStr "6f1c0a52"]> ∅)).

Definition unauthorized : ApiClient.Response :=
  {| ApiClient.status_code := 401;
     ApiClient.reason := "Unauthorized";
     ApiClient.text := "Unauthorized";
     ApiClient.body := ApiClient.JsonObject (<["message" := "Unauthorized"]> ∅) |}.

Definition too_many_requests : ApiClient.Response :=
  {| ApiClient.status_code := 429;
     ApiClient.reason := "Too Many Requests";
     ApiClient.text := "slow down";
     ApiClient.body := ApiClient.NotJson "Expecting value" |}.

(** The session when a submit makes the chat call: the user message
    appended to the messages [l], the session identifier in place. *)
Definition at_call (fresh_uuid prompt : string) (l : list chat_message)
    (s : session_state) : session_state :=
  <["session_id" := submit_session_id fresh_uuid s]>
    (<["messages" := VMsgs (l ++ [{| role := "user"; content := prompt |}])]> s).

(** "Quota is spent on attempt": a submit whose chat call fails still
    increments the counter. *)
Definition quota_spent_on_attempt : Prop :=
  forall settings post fresh_uuid prompt guest_mode l c (s : session_state),
    has_messages l s ->
    s !! "questions_used" = Some (VInt c) ->
    fails (post (submit_request settings fresh_uuid prompt guest_mode s)) = true ->
    final_state (ChatInterface._handle_user_input settings post fresh_uuid prompt
                   guest_mode s) !! "questions_used" = Some (VInt (c + 1)).

(** The refresh call of the identity provider raised. *)
Definition refresh_call_raises (r : Cognito.InitiateAuth) : bool :=
  match r with
  | Cognito.AuthenticationResult _ _ => false
  | _ => true
  end.

(** "A failed refresh clears the credential entirely": no access token,
    no username and no refresh token are left. *)
Definition failed_refresh_clears_credential : Prop :=
  forall initiate_auth token (s : session_state),
    s !! "refresh_token" = Some token -> truthy token = true ->
    refresh_call_raises (initiate_auth token) = true ->
    let s' := final_state (Authentication.refresh_token initiate_auth s) in
    s' !! "user_token" = None /\ s' !! "username" = None /\
    s' !! "refresh_token" = None.

(** Two networks: one that is down, one where the chat API answers
    every request with [text]. *)
Definition network_down : ApiClient.Request -> ApiClient.PostResult :=
  fun _ => ApiClient.PostRaises "Connection refused".

Definition network_replies (text : string)
    : ApiClient.Request -> ApiClient.PostResult :=
  fun _ => ApiClient.PostReturns
             {| ApiClient.status_code := 200;
                ApiClient.reason := "OK";
                ApiClient.text := text;
                ApiClient.body := ApiClient.JsonObject (<["response" := text]> ∅) |}.

(** An identity provider that rejects every refresh token. *)
Definition refresh_rejected : value -> Cognito.InitiateAuth :=
  fun _ => Cognito.ClientError "NotAuthorizedException" "Refresh Token has expired".

(** A logged-in session that also holds a refresh token. *)
Definition refreshable_session : session_state :=
  <["refresh_token" := VStr "stale-refresh-token"]> logged_in_session.

(** The text of the reply in an answer of the network: the ["response"]
    member of a JSON body. *)
Definition reply_text (r : ApiClient.PostResult) : option string :=
  match r with
  | ApiClient.PostReturns response =>
      match ApiClient.body response with
      | ApiClient.JsonObject members => members !! "response"
      | ApiClient.NotJson _ => None
      end
  | ApiClient.PostRaises _ => None
  end.




(** The access token a submitted login form obtains: none when the form
    was not submitted, a field is blank, or the provider does not answer
    with tokens. *)
Definition login_accepted (password_auth : string -> string -> Cognito.PasswordAuth)
    (submit_button : bool) (username password : string) : option string :=
  if submit_button && negb (String.eqb username "") && negb (String.eqb password "")
  then match password_auth username password with
       | Cognito.PasswordResult access_token _ _ => Some access_token
       | _ => None
       end
  else None.

(** An identity provider that knows one user, and a guest session. *)
Definition one_user : string -> string -> Cognito.PasswordAuth :=
  fun username password =>
    if String.eqb username "alice" && String.eqb password "correct horse"
    then Cognito.PasswordResult "access-1" "refresh-1" 3600
    else Cognito.PasswordClientError "NotAuthorizedException"
           "Incorrect username or password.".

Definition guest_session : session_state :=
  <["guest_mode" := VBool true]> (<["session_id" := VStr "6f1c0a52"]> ∅).

(** An identity provider that accepts every refresh token. *)
Definition refresh_accepted : value -> Cognito.InitiateAuth :=
  fun _ => Cognito.AuthenticationResult "access-2" 3600.

(** The character [c] occurs in [s]; [s] is made of white space only. *)
Fixpoint has_char (c : ascii) (s : string) : bool :=
  match s with
  | EmptyString => false
  | String d rest => Ascii.eqb c d || has_char c rest
  end.

Fixpoint all_space (s : string) : bool :=
  match s with
  | EmptyString => true
  | String c rest => is_space c && all_space rest
  end.

(** * Properties *)

(** ** The quota window *)

Module RateLimitFacts.
Import RateLimit.
Section RateLimitFacts.
Variable settings : Settings.

Local Abbreviation check := (check_rate_limit settings).
Local Abbreviation increment := (increment_rate_limit settings).
Local Abbreviation window := (timedelta_hours (RATE_LIMIT_WINDOW_HOURS settings)).

Ltac unfold_check :=
  unfold increment_rate_limit, check_rate_limit, get_rate_limit_reset_time,
    incr_attr, int_lt, datetime_sub, when, bind, contains, getattr,
    get_default, setattr, ret, raise.

(** Inside the window the check only reads. *)
Lemma check_same_window t0 c now g s :
  in_window t0 c s -> same_window settings t0 now ->
  check now g s = Ret (c <? tier_limit settings g) s.
Proof.
  intros [Hstart Hused] Hwin. unfold same_window in Hwin. unfold_check.
  rewrite Hstart. simpl. rewrite Hstart. simpl.
  destruct (Z.gtb_spec (now - t0) window) as [Hgt|_]; [lia|].
  simpl. rewrite Hused. reflexivity.
Qed.

(** Past the window the check first starts a new one. *)
Lemma check_reset t0 now g s :
  s !! "rate_limit_start" = Some (VTime t0) ->
  now - t0 > window ->
  check now g s =
    Ret (0 <? tier_limit settings g)
        (<["questions_used" := VInt 0]> (<["rate_limit_start" := VTime now]> s)).
Proof.
  intros Hstart Hgt. unfold_check.
  rewrite Hstart. simpl. rewrite Hstart. simpl.
  destruct (Z.gtb_spec (now - t0) window) as [_|Hle]; [|lia].
  simpl. rewrite lookup_insert_eq. reflexivity.
Qed.

(** The first check of a session starts the window. *)
Lemma check_first now g s :
  s !! "rate_limit_start" = None ->
  check now g s =
    Ret (0 <? tier_limit settings g)
        (<["questions_used" := VInt 0]> (<["rate_limit_start" := VTime now]> s)).
Proof.
  intros Hstart. unfold_check. rewrite Hstart. simpl.
  rewrite lookup_insert_ne by done. rewrite lookup_insert_eq. simpl.
  destruct (now - now >? window); simpl.
  - rewrite lookup_insert_eq. f_equal.
    apply map_eq; intros k. rewrite !lookup_insert.
    repeat case_decide; congruence.
  - rewrite lookup_insert_eq. reflexivity.
Qed.

(** The tier is not touched by starting a window. *)
Lemma guest_mode_restart now v s :
  session_guest_mode
    (<["questions_used" := v]> (<["rate_limit_start" := VTime now]> s))
  = session_guest_mode s.
Proof.
  unfold session_guest_mode. by rewrite !lookup_insert_ne by done.
Qed.

Lemma quota_ok_restart now s :
  0 <= tier_limit settings (session_guest_mode s) ->
  quota_ok settings
    (<["questions_used" := VInt 0]> (<["rate_limit_start" := VTime now]> s)).
Proof.
  intros Hlim. right. exists 0. rewrite lookup_insert_eq.
  split; [done|]. by rewrite guest_mode_restart.
Qed.

(** What a check can do to the session: nothing, or start a window. *)
Lemma check_final_state now g s :
  final_state (check now g s) = s \/
  final_state (check now g s) =
    <["questions_used" := VInt 0]> (<["rate_limit_start" := VTime now]> s).
Proof.
  destruct (s !! "rate_limit_start") as [start|] eqn:Hstart.
  - destruct start as [| | | |t0|];
      try (left; unfold_check; rewrite Hstart; simpl; rewrite Hstart; reflexivity).
    destruct (Z.gtb_spec (now - t0) window) as [Hgt|Hle].
    + right. rewrite (check_reset t0) by (done || lia). reflexivity.
    + left. unfold_check. rewrite Hstart. simpl. rewrite Hstart. simpl.
      destruct (Z.gtb_spec (now - t0) window) as [Hgt|_]; [lia|]. simpl.
      destruct (s !! "questions_used") as [used|]; [|reflexivity].
      destruct (as_int used); reflexivity.
  - right. rewrite check_first by done. reflexivity.
Qed.

Lemma check_preserves_quota now g s :
  0 <= tier_limit settings (session_guest_mode s) ->
  quota_ok settings s -> quota_ok settings (final_state (check now g s)).
Proof.
  intros Hlim Hok.
  destruct (check_final_state now g s) as [-> | ->];
    [assumption | by apply quota_ok_restart].
Qed.

Lemma check_guest_mode now g s :
  session_guest_mode (final_state (check now g s)) = session_guest_mode s.
Proof.
  destruct (check_final_state now g s) as [-> | ->];
    [reflexivity | apply guest_mode_restart].
Qed.

(** A check that returns has compared the counter it left in the
    session with the limit. *)
Lemma check_returns now g s b s1 :
  check now g s = Ret b s1 ->
  exists used n, s1 !! "questions_used" = Some used /\
                 as_int used = Some n /\ b = (n <? tier_limit settings g).
Proof.
  destruct (s !! "rate_limit_start") as [start|] eqn:Hstart.
  - destruct start as [| | | |t0|];
      try (unfold_check; rewrite Hstart; simpl; rewrite Hstart; discriminate).
    destruct (Z.gtb_spec (now - t0) window) as [Hgt|Hle].
    + rewrite (check_reset t0) by (done || lia). intros [= <- <-].
      exists (VInt 0), 0. by rewrite lookup_insert_eq.
    + unfold_check. rewrite Hstart. simpl. rewrite Hstart. simpl.
      destruct (Z.gtb_spec (now - t0) window) as [Hgt|_]; [lia|]. simpl.
      destruct (s !! "questions_used") as [used|] eqn:Hused; [|discriminate].
      destruct (as_int used) as [n|] eqn:Hn; [|discriminate].
      intros [= <- <-]. by exists used, n.
  - rewrite check_first by done. intros [= <- <-].
    exists (VInt 0), 0. by rewrite lookup_insert_eq.
Qed.

Lemma guest_mode_used v s :
  session_guest_mode (<["questions_used" := v]> s) = session_guest_mode s.
Proof. unfold session_guest_mode. by rewrite lookup_insert_ne by done. Qed.

(** [increment_rate_limit] in terms of the check it starts with. *)
Lemma increment_unfold now s :
  increment now s =
    match check now (session_guest_mode s) s with
    | Ret ok s1 =>
        if negb ok
        then Raise (RateLimitError "Rate limit exceeded. Please try again later.") s1
        else incr_attr "questions_used" s1
    | Raise e s1 => Raise e s1
    | Rerun s1 => Rerun s1
    end.
Proof.
  unfold increment_rate_limit, bind, get_default, session_guest_mode, raise.
  destruct (check _ _ s) as [[] ?| |]. all: reflexivity.
Qed.

(** A check never asks for a rerun. *)
Lemma check_no_rerun now g s s1 : check now g s <> Rerun s1.
Proof.
  unfold_check.
  destruct (s !! "rate_limit_start") as [start|] eqn:Hstart; simpl.
  - rewrite Hstart. destruct start as [| | | |t0|]; simpl; try discriminate.
    destruct (now - t0 >? window); simpl.
    + rewrite lookup_insert_eq. discriminate.
    + destruct (s !! "questions_used") as [used|]; [|discriminate].
      destruct (as_int used); discriminate.
  - rewrite lookup_insert_ne by done. rewrite lookup_insert_eq. simpl.
    destruct (now - now >? window); simpl; rewrite lookup_insert_eq; discriminate.
Qed.

(** An increment either raises, leaving the session as its check left
    it, or returns with the counter one higher and still within the
    limit of the session's tier. *)
Lemma increment_cases now s :
  let s1 := final_state (check now (session_guest_mode s) s) in
  (exists e, increment now s = Raise e s1) \/
  (exists used n, s1 !! "questions_used" = Some used /\ as_int used = Some n /\
     n < tier_limit settings (session_guest_mode s) /\
     increment now s = Ret tt (<["questions_used" := VInt (n + 1)]> s1)).
Proof.
  intros s1. subst s1. rewrite increment_unfold.
  destruct (check now (session_guest_mode s) s) as [b s1|e s1|s1] eqn:Hc; simpl.
  - destruct (check_returns _ _ _ _ _ Hc) as (used & n & Hused & Hn & ->).
    destruct (Z.ltb_spec n (tier_limit settings (session_guest_mode s))); simpl.
    + right. exists used, n. repeat split; try done.
      unfold incr_attr, bind, getattr, setattr. by rewrite Hused, Hn.
    + left. eexists. reflexivity.
  - left. by eexists.
  - by destruct (check_no_rerun _ _ _ _ Hc).
Qed.

Lemma increment_preserves_quota now s :
  0 <= tier_limit settings (session_guest_mode s) ->
  quota_ok settings s ->
  quota_ok settings (final_state (increment now s)) /\
  session_guest_mode (final_state (increment now s)) = session_guest_mode s.
Proof.
  intros Hlim Hok.
  pose proof (check_preserves_quota now (session_guest_mode s) s Hlim Hok) as Hok1.
  pose proof (check_guest_mode now (session_guest_mode s) s) as Hg1.
  destruct (increment_cases now s) as [[e ->]|(used & n & _ & _ & Hlt & ->)]; simpl.
  - done.
  - rewrite guest_mode_used. split; [|done].
    right. exists (n + 1). rewrite lookup_insert_eq, guest_mode_used, Hg1.
    split; [done|lia].
Qed.

Lemma step_preserves_quota o s :
  0 <= tier_limit settings (session_guest_mode s) ->
  quota_ok settings s ->
  quota_ok settings (fst (step settings o s)) /\
  session_guest_mode (fst (step settings o s)) = session_guest_mode s.
Proof.
  intros Hlim Hok. destruct o as [t g|t]; simpl.
  - split; [by apply check_preserves_quota | apply check_guest_mode].
  - pose proof (increment_preserves_quota t s Hlim Hok) as H.
    by destruct (increment t s).
Qed.

Lemma run_ops_preserves_quota ops : forall s,
  0 <= tier_limit settings (session_guest_mode s) ->
  quota_ok settings s ->
  quota_ok settings (fst (run_ops settings ops s)).
Proof.
  induction ops as [|o ops IH]; intros s Hlim Hok; simpl; [done|].
  destruct (step_preserves_quota o s Hlim Hok) as [Hok1 Hg1].
  destruct (step settings o s) as [s1 allowed]; simpl in *.
  specialize (IH s1). rewrite Hg1 in IH. specialize (IH Hlim Hok1).
  by destruct (run_ops settings ops s1).
Qed.

(** Inside the window an increment is decided by the counter alone. *)
Lemma increment_same_window t0 c now s :
  in_window t0 c s -> same_window settings t0 now ->
  increment now s =
    if c <? tier_limit settings (session_guest_mode s)
    then Ret tt (<["questions_used" := VInt (c + 1)]> s)
    else Raise (RateLimitError "Rate limit exceeded. Please try again later.") s.
Proof.
  intros Hin Hwin. rewrite increment_unfold.
  rewrite (check_same_window t0 c) by done.
  destruct (c <? _); simpl; [|done].
  unfold incr_attr, bind, getattr, setattr.
  destruct Hin as [_ ->]. reflexivity.
Qed.

Lemma in_window_used t0 c c' s :
  in_window t0 c s -> in_window t0 c' (<["questions_used" := VInt c']> s).
Proof.
  intros [Hstart _]. split.
  - by rewrite lookup_insert_ne by done.
  - by rewrite lookup_insert_eq.
Qed.

(** One operation inside the window. *)
Lemma step_same_window t0 c o s :
  in_window t0 c s -> same_window settings t0 (op_time o) ->
  c <= tier_limit settings (session_guest_mode s) ->
  let '(s1, allowed) := step settings o s in
  let k := if allowed then 1 else 0 in
  in_window t0 (c + k) s1 /\
  c + k <= tier_limit settings (session_guest_mode s) /\
  session_guest_mode s1 = session_guest_mode s.
Proof.
  intros Hin Hwin Hle. destruct o as [t g|t]; simpl in *.
  - rewrite (check_same_window t0 c) by done. simpl.
    rewrite Z.add_0_r. done.
  - rewrite (increment_same_window t0 c) by done.
    destruct (Z.ltb_spec c (tier_limit settings (session_guest_mode s))).
    + split; [by eapply in_window_used|]. split; [lia|apply guest_mode_used].
    + rewrite Z.add_0_r. done.
Qed.

(** A run inside one window: the counter grows by the number of allowed
    reservations and stays within the limit. *)
Lemma run_ops_same_window t0 ops : forall c s,
  in_window t0 c s ->
  Forall (fun o => same_window settings t0 (op_time o)) ops ->
  c <= tier_limit settings (session_guest_mode s) ->
  let '(s', k) := run_ops settings ops s in
  in_window t0 (c + k) s' /\ 0 <= k /\
  c + k <= tier_limit settings (session_guest_mode s) /\
  session_guest_mode s' = session_guest_mode s.
Proof.
  induction ops as [|o ops IH]; intros c s Hin Hall Hle; simpl.
  - rewrite Z.add_0_r. split; [done|]. split; [lia|]. split; [lia|done].
  - inversion Hall as [|? ? Ho Hops]; subst.
    pose proof (step_same_window t0 c o s Hin Ho Hle) as Hstep.
    destruct (step settings o s) as [s1 allowed].
    destruct Hstep as (Hin1 & Hle1 & Hg1).
    specialize (IH _ s1 Hin1 Hops). rewrite Hg1 in IH. specialize (IH Hle1).
    destruct (run_ops settings ops s1) as [s2 n].
    destruct IH as (Hin2 & Hn & Hle2 & Hg2).
    rewrite Z.add_assoc. split; [done|]. split; [destruct allowed; lia|].
    split; [done|congruence].
Qed.

(** C1. For every sequence of checks ([check_rate_limit]) and increments
    ([increment_rate_limit]), from a session whose counter is within the
    limit of its tier (the limit being non-negative): the counter is
    within the limit after the sequence, hence after every operation of
    it; and when the whole sequence falls in one quota window, started
    with a non-negative count, the number of allowed reservations does
    not exceed the limit and is what the counter grew by. *)
Theorem quota_never_exceeded (ops : list op) (s : session_state) :
  0 <= tier_limit settings (session_guest_mode s) ->
  quota_ok settings s ->
  quota_ok settings (fst (run_ops settings ops s)) /\
  (forall t0 c,
     in_window t0 c s -> 0 <= c ->
     Forall (fun o => same_window settings t0 (op_time o)) ops ->
     snd (run_ops settings ops s) <= tier_limit settings (session_guest_mode s) /\
     in_window t0 (c + snd (run_ops settings ops s)) (fst (run_ops settings ops s))).
Proof.
  intros Hlim Hok. split; [by apply run_ops_preserves_quota|].
  intros t0 c Hin Hc Hall.
  assert (c <= tier_limit settings (session_guest_mode s)) as Hle.
  { destruct Hok as [Hnone|(c' & Hc' & Hle)]; destruct Hin as [_ Hused];
      rewrite Hused in *; [discriminate|congruence]. }
  pose proof (run_ops_same_window t0 ops c s Hin Hall Hle) as H.
  destruct (run_ops settings ops s) as [s' k]; simpl.
  destruct H as (Hin' & Hk & Hle' & _). split; [lia|done].
Qed.

(** Reservation attempts in one window: as many are allowed as there is
    room left. *)
Lemma run_increments t0 times : forall c s,
  in_window t0 c s ->
  Forall (same_window settings t0) times ->
  c <= tier_limit settings (session_guest_mode s) ->
  let '(s', k) := run_ops settings (map OpIncrement times) s in
  k = Z.min (Z.of_nat (length times)) (tier_limit settings (session_guest_mode s) - c) /\
  in_window t0 (c + k) s' /\
  session_guest_mode s' = session_guest_mode s.
Proof.
  induction times as [|t times IH]; intros c s Hin Hall Hle.
  - simpl. rewrite Z.add_0_r. split; [lia|done].
  - inversion Hall as [|? ? Ht Htimes]; subst.
    cbn [map run_ops step length].
    rewrite (increment_same_window t0 c) by done.
    destruct (Z.ltb_spec c (tier_limit settings (session_guest_mode s))) as [Hlt|Hge].
    + specialize (IH (c + 1) (<["questions_used" := VInt (c + 1)]> s)).
      rewrite guest_mode_used in IH.
      specialize (IH (in_window_used _ _ _ _ Hin) Htimes ltac:(lia)).
      destruct (run_ops _ _ _) as [s' k]. destruct IH as (-> & Hin' & Hg).
      split; [lia|]. split; [|done].
      by replace (c + (1 + _)) with (c + 1 + Z.of_nat (length times)
           `min` (tier_limit settings (session_guest_mode s) - (c + 1))) by lia.
    + specialize (IH c s Hin Htimes Hle).
      destruct (run_ops _ _ _) as [s' k]. destruct IH as (-> & Hin' & Hg).
      split; [lia|]. split; [|done].
      by replace (c + (0 + _)) with (c + Z.of_nat (length times)
           `min` (tier_limit settings (session_guest_mode s) - c)) by lia.
Qed.

(** C2. In a window whose count is below the limit the check succeeds.
    Of any number of reservation attempts made in one window, starting
    from count 0, exactly the first [limit] are allowed; once [limit] of
    them were made, a further attempt in the same window is denied with
    [RateLimitError] and the session unchanged, and the reset time is
    the window start plus the window duration. *)
Theorem exactly_limit_reservations (t0 now : Z) (times : list Z) (s : session_state) :
  let limit := tier_limit settings (session_guest_mode s) in
  in_window t0 0 s -> 0 <= limit ->
  Forall (same_window settings t0) times -> same_window settings t0 now ->
  (forall c g s', in_window t0 c s' -> c < tier_limit settings g ->
                  check now g s' = Ret true s') /\
  let '(s', k) := run_ops settings (map OpIncrement times) s in
  k = Z.min (Z.of_nat (length times)) limit /\
  (limit <= Z.of_nat (length times) ->
     in_window t0 limit s' /\
     increment now s' =
       Raise (RateLimitError "Rate limit exceeded. Please try again later.") s' /\
     check now (session_guest_mode s) s' = Ret false s' /\
     get_rate_limit_reset_time settings s' = Ret (Some (t0 + window)) s').
Proof.
  intros limit Hin Hlim Hall Hnow. split.
  - intros c g s' Hin' Hlt. rewrite (check_same_window t0 c) by done.
    by destruct (Z.ltb_spec c (tier_limit settings g)); [|lia].
  - pose proof (run_increments t0 times 0 s Hin Hall Hlim) as H.
    destruct (run_ops _ _ _) as [s' k]. destruct H as (Hk & Hin' & Hg).
    rewrite Z.sub_0_r in Hk. split; [done|]. intros Hfull.
    assert (k = limit) as -> by (subst limit; lia).
    rewrite Z.add_0_l in Hin'. split; [done|]. split; [|split].
    + rewrite (increment_same_window t0 limit) by done. rewrite Hg.
      by rewrite Z.ltb_irrefl.
    + rewrite (check_same_window t0 limit) by done.
      by rewrite Z.ltb_irrefl.
    + destruct Hin' as [Hstart _]. unfold_check.
      rewrite Hstart. simpl. by rewrite Hstart.
Qed.

(** C3. A check or a reservation attempt made once more than the
    window duration has passed since the window start first sets the
    count to 0 and the window start to the current time, whatever the
    count was; the check then answers as for an unused quota, and the
    reservation is decided on the count 0: with a positive limit it is
    allowed and is the first of the new window. *)
Theorem window_reset_is_lazy (t0 now : Z) (g : bool) (s : session_state) :
  s !! "rate_limit_start" = Some (VTime t0) ->
  now - t0 > window ->
  let s1 := <["questions_used" := VInt 0]> (<["rate_limit_start" := VTime now]> s) in
  in_window now 0 s1 /\
  check now g s = Ret (0 <? tier_limit settings g) s1 /\
  increment now s =
    if 0 <? tier_limit settings (session_guest_mode s)
    then Ret tt (<["questions_used" := VInt 1]> s1)
    else Raise (RateLimitError "Rate limit exceeded. Please try again later.") s1.
Proof.
  intros Hstart Hgt s1. subst s1. split; [|split].
  - split; [|by apply lookup_insert_eq].
    rewrite lookup_insert_ne by done. apply lookup_insert_eq.
  - by apply (check_reset t0).
  - rewrite increment_unfold, (check_reset t0) by done.
    destruct (0 <? tier_limit settings (session_guest_mode s)); simpl; [|done].
    unfold incr_attr, bind, getattr, setattr.
    rewrite lookup_insert_eq. reflexivity.
Qed.

End RateLimitFacts.

Lemma quota_never_exceeded_witness :
let ops := [OpIncrement 5; OpCheck 6 true; OpIncrement 7] in
let s := demo_session 0 9 in
0 <= tier_limit demo_settings (session_guest_mode s) /\
quota_ok demo_settings s /\
(quota_ok demo_settings (fst (run_ops demo_settings ops s)) /\
 (forall t0 c,
    in_window t0 c s -> 0 <= c ->
    Forall (fun o => same_window demo_settings t0 (op_time o)) ops ->
    snd (run_ops demo_settings ops s) <= tier_limit demo_settings (session_guest_mode s) /\
    in_window t0 (c + snd (run_ops demo_settings ops s))
      (fst (run_ops demo_settings ops s)))).
Proof.
intros ops s.
assert (0 <= tier_limit demo_settings (session_guest_mode s)) as Hlim
  by (vm_compute; discriminate).
assert (quota_ok demo_settings s) as Hok.
{ right. exists 9. split; [reflexivity | vm_compute; discriminate]. }
split; [exact Hlim|]. split; [exact Hok|].
exact (quota_never_exceeded demo_settings ops s Hlim Hok).
Defined.

Lemma exactly_limit_reservations_witness :
let times := [1; 2; 3; 4; 5; 6; 7; 8; 9; 10; 11] in
let s := demo_session 0 0 in
in_window 0 0 s /\
0 <= tier_limit demo_settings (session_guest_mode s) /\
Forall (same_window demo_settings 0) times /\
same_window demo_settings 0 12 /\
snd (run_ops demo_settings (map OpIncrement times) s) = 10.
Proof.
intros times s.
assert (in_window 0 0 s) as Hin by (split; reflexivity).
assert (0 <= tier_limit demo_settings (session_guest_mode s)) as Hlim
  by (vm_compute; discriminate).
assert (Forall (same_window demo_settings 0) times) as Hall
  by (repeat constructor; vm_compute; discriminate).
assert (same_window demo_settings 0 12) as Hnow by (vm_compute; discriminate).
repeat (split; [assumption|]).
pose proof (exactly_limit_reservations demo_settings 0 12 times s Hin Hlim Hall Hnow)
  as [_ H].
destruct (run_ops demo_settings (map OpIncrement times) s) as [s' k].
destruct H as [-> _]. reflexivity.
Defined.

Lemma window_reset_is_lazy_witness :
let s := demo_session 0 10 in
let now := 3600000001 in
s !! "rate_limit_start" = Some (VTime 0) /\
now - 0 > timedelta_hours (RATE_LIMIT_WINDOW_HOURS demo_settings) /\
check_rate_limit demo_settings now true s =
  Ret true (<["questions_used" := VInt 0]> (<["rate_limit_start" := VTime now]> s)).
Proof.
intros s now.
assert (s !! "rate_limit_start" = Some (VTime 0)) as Hstart by reflexivity.
assert (now - 0 > timedelta_hours (RATE_LIMIT_WINDOW_HOURS demo_settings)) as Hgt
  by reflexivity.
split; [exact Hstart|]. split; [exact Hgt|].
exact (proj1 (proj2 (window_reset_is_lazy demo_settings 0 now true s Hstart Hgt))).
Defined.

End RateLimitFacts.

(** ** The message history *)

Module SessionFacts.
Import Session.

Lemma has_messages_cases l s :
  has_messages l s ->
  (s !! "messages" = None /\ l = []) \/ s !! "messages" = Some (VMsgs l).
Proof.
  unfold has_messages, get_current_messages, get_default.
  destruct (s !! "messages") as [v|]; simpl; intros [= H]; subst; auto.
Qed.

Lemma has_messages_insert l s :
  has_messages l (<["messages" := VMsgs l]> s).
Proof.
  unfold has_messages, get_current_messages, get_default.
  by rewrite lookup_insert_eq.
Qed.

Lemma insert_messages_twice (v w : value) (s : session_state) :
  <["messages" := v]> (<["messages" := w]> s) = <["messages" := v]> s.
Proof. apply insert_insert_eq. Qed.

(** One append, on a session whose messages are [l]. *)
Lemma add_message_to_history_spec m l s :
  has_messages l s ->
  add_message_to_history m s = Ret tt (<["messages" := VMsgs (l ++ [m])]> s).
Proof.
  intros H. unfold add_message_to_history, list_append, when, bind, contains,
    getattr, setattr, ret.
  destruct (has_messages_cases l s H) as [[Hnone ->] | Hsome].
  - rewrite Hnone. simpl. rewrite lookup_insert_eq.
    by rewrite insert_messages_twice.
  - rewrite Hsome. simpl. by rewrite Hsome.
Qed.

(** C9. Appends only add at the end: from a session whose messages are
    [l], any sequence of [add_message_to_history] calls returns, and the
    messages are then [l] followed by the appended messages in call
    order; nothing else in the session changes. *)
Theorem append_only (messages l : list chat_message) (s : session_state) :
  has_messages l s ->
  exists s', add_all messages s = Ret tt s' /\
             has_messages (l ++ messages) s' /\
             forall name, name <> "messages" -> s' !! name = s !! name.
Proof.
  revert l s. induction messages as [|m rest IH]; intros l s H.
  - exists s. simpl. rewrite app_nil_r. done.
  - cbn [add_all]. unfold bind at 1.
    rewrite (add_message_to_history_spec m l s H).
    destruct (IH (l ++ [m]) _ (has_messages_insert (l ++ [m]) s))
      as (s' & Hrun & Hmsgs & Hrest).
    exists s'. rewrite Hrun, <- app_assoc in *. split; [done|]. split; [done|].
    intros name Hname. rewrite Hrest by done. by rewrite lookup_insert_ne.
Qed.

Lemma append_only_witness :
  let s : session_state := <["messages" := VMsgs [Message "user" "hi"]]> ∅ in
  let new := [Message "assistant" "hello"; Message "user" "bye"] in
  has_messages [Message "user" "hi"] s /\
  exists s', add_all new s = Ret tt s' /\
             has_messages ([Message "user" "hi"] ++ new) s' /\
             forall name, name <> "messages" -> s' !! name = s !! name.
Proof.
  intros s new.
  assert (has_messages [Message "user" "hi"] s) as H by reflexivity.
  split; [exact H|]. exact (append_only new _ s H).
Defined.

End SessionFacts.

(** ** The chat call *)

Module ApiClientFacts.
Import ApiClient.
Section ApiClientFacts.
Variable settings : Settings.
Variable post : Request -> PostResult.

Lemma request_for_ext message sid g (s s' : session_state) :
  s' !! "user_token" = s !! "user_token" ->
  s' !! "session_id" = s !! "session_id" ->
  request_for settings message sid g s' = request_for settings message sid g s.
Proof. intros Ht Hs. unfold request_for. by rewrite Ht, Hs. Qed.

(** [send_message] reads the session and never writes it: it returns
    the reply or raises, the session as it was. *)
Lemma send_message_outcome message sid g s :
  let answer := post (request_for settings message sid g s) in
  if fails answer
  then exists e, send_message settings post message sid g s = Raise e s /\
                 forall msg, e <> ValidationError msg
  else exists text, send_message settings post message sid g s = Ret text s.
Proof.
  intros answer. subst answer.
  unfold send_message, _get_headers, try_except_request, bind, get_default, ret.
  change (post _) with (post (request_for settings message sid g s)).
  destruct (post (request_for settings message sid g s)) as [str_e|response]; simpl.
  - unfold raise. destruct (str_in _ _); eexists; split; (reflexivity || discriminate).
  - destruct (status_code response =? 429) eqn:H429; simpl.
    { eexists; split; [reflexivity | discriminate]. }
    unfold raise_for_status.
    destruct ((400 <=? status_code response) && (status_code response <? 500)) eqn:H4xx.
    { replace ((400 <=? status_code response) && (status_code response <? 600))
        with true by lia. simpl.
      unfold raise. destruct (str_in _ _); eexists; split; (reflexivity || discriminate). }
    destruct ((500 <=? status_code response) && (status_code response <? 600)) eqn:H5xx.
    { replace ((400 <=? status_code response) && (status_code response <? 600))
        with true by lia. simpl.
      unfold raise. destruct (str_in _ _); eexists; split; (reflexivity || discriminate). }
    replace ((400 <=? status_code response) && (status_code response <? 600))
      with false by lia. simpl.
    unfold json_response. destruct (body response) as [error|members]; simpl.
    + unfold raise. destruct (str_in _ _); eexists; split; (reflexivity || discriminate).
    + destruct (members !! "response") as [text|]; simpl.
      * by eexists.
      * eexists; split; [reflexivity | discriminate].
Qed.

(** The session after [send_message], whatever the network answers. *)
Lemma send_message_keeps_session message sid g s :
  final_state (send_message settings post message sid g s) = s.
Proof.
  pose proof (send_message_outcome message sid g s) as H. simpl in H.
  destruct (fails _); [destruct H as (e & -> & _) | destruct H as (text & ->)];
    reflexivity.
Qed.

End ApiClientFacts.

(** C8. In a logged-in session, [send_message] answered with status 401
    raises the generic [APIError] built from the [HTTPError] of
    [raise_for_status] and leaves the access token in the session; the
    handler that deletes the token on a 401, [_handle_response_error],
    is not on that path.  The error does differ from the
    [RateLimitError] of a 429. *)
Theorem unauthorized_keeps_token :
  let s := logged_in_session in
  send_message demo_settings (fun _ => PostReturns unauthorized)
      "hello" (VStr "6f1c0a52") false s
    = Raise (APIError ("Failed to send message: 401 Client Error: " +:+
                       "Unauthorized for url: https://api.example/chat")) s /\
  s !! "user_token" = Some (VStr "expired-token") /\
  final_state (_handle_response_error unauthorized s) !! "user_token" = None /\
  send_message demo_settings (fun _ => PostReturns too_many_requests)
      "hello" (VStr "6f1c0a52") false s
    = Raise (RateLimitError "Rate limit exceeded. Please try again later.") s.
Proof. vm_compute. repeat split; reflexivity. Qed.

End ApiClientFacts.

(** ** Submitting a message *)

Module ChatInterfaceFacts.
Import ChatInterface.
Section ChatInterfaceFacts.
Variable settings : Settings.
Variable post : ApiClient.Request -> ApiClient.PostResult.

Local Abbreviation handle := (_handle_user_input settings post).
Local Abbreviation user prompt := {| role := "user"; content := prompt |}.
Local Abbreviation assistant text := {| role := "assistant"; content := text |}.

Lemma get_session_id_spec fresh_uuid (s : session_state) :
  Session.get_session_id fresh_uuid s =
    Ret (submit_session_id fresh_uuid s)
        (<["session_id" := submit_session_id fresh_uuid s]> s).
Proof.
  unfold Session.get_session_id, submit_session_id, when, bind, contains,
    getattr, setattr, ret.
  destruct (s !! "session_id") as [sid|] eqn:Hsid; simpl.
  - rewrite Hsid. by rewrite insert_id.
  - by rewrite lookup_insert_eq.
Qed.

Lemma request_at_call fresh_uuid prompt g l s :
  request_for settings prompt (submit_session_id fresh_uuid s) g
    (at_call fresh_uuid prompt l s)
  = submit_request settings fresh_uuid prompt g s.
Proof.
  unfold submit_request, at_call. apply ApiClientFacts.request_for_ext.
  - by rewrite !lookup_insert_ne by done.
  - by rewrite !lookup_insert_eq.
Qed.

(** [_handle_user_input] up to the chat call and around it. *)
Lemma handle_unfold fresh_uuid prompt g l s :
  has_messages l s ->
  let sid := submit_session_id fresh_uuid s in
  let s2 := at_call fresh_uuid prompt l s in
  handle fresh_uuid prompt g s =
    try_except
      (response <- ApiClient.send_message settings post prompt sid g;;
       list_append "messages" (assistant response);;;
       _update_question_count;;;
       experimental_rerun)
      (fun e => st_error e) s2.
Proof.
  intros H sid s2. subst sid s2.
  unfold _handle_user_input, try_except.
  unfold bind at 1 2 3, when, contains, list_append at 1, bind at 1,
    getattr, setattr, ret.
  destruct (SessionFacts.has_messages_cases l s H) as [[Hnone ->] | Hsome].
  - rewrite Hnone. simpl. rewrite lookup_insert_eq.
    rewrite SessionFacts.insert_messages_twice.
    unfold bind at 1. rewrite get_session_id_spec.
    unfold submit_session_id, at_call.
    by rewrite !(lookup_insert_ne _ "messages") by done.
  - rewrite Hsome. simpl. rewrite Hsome.
    unfold bind at 1. rewrite get_session_id_spec.
    unfold submit_session_id, at_call.
    by rewrite !(lookup_insert_ne _ "messages") by done.
Qed.

(** The counter update of a successful submit. *)
Lemma update_question_count_spec (s : session_state) :
  _update_question_count s =
    match s !! "questions_used" with
    | None => Ret tt (<["questions_used" := VInt 1]> s)
    | Some v => match as_int v with
                | Some n => Ret tt (<["questions_used" := VInt (n + 1)]> s)
                | None => Raise TypeError s
                end
    end.
Proof.
  unfold _update_question_count, incr_attr, when, bind, contains, getattr,
    setattr, ret, raise.
  destruct (s !! "questions_used") as [v|] eqn:Hused; simpl.
  - rewrite Hused. by destruct (as_int v).
  - rewrite lookup_insert_eq. simpl. by rewrite insert_insert_eq.
Qed.

(** A submit whose chat call fails: the error is shown and the session
    stays as it was when the call was made. *)
Lemma handle_failure fresh_uuid prompt g l s :
  has_messages l s ->
  fails (post (submit_request settings fresh_uuid prompt g s)) = true ->
  handle fresh_uuid prompt g s = Ret tt (at_call fresh_uuid prompt l s).
Proof.
  intros H Hfails. rewrite (handle_unfold _ _ _ l) by done.
  unfold try_except, bind at 1.
  pose proof (ApiClientFacts.send_message_outcome settings post prompt
                (submit_session_id fresh_uuid s) g (at_call fresh_uuid prompt l s)) as Hsend.
  simpl in Hsend. rewrite request_at_call, Hfails in Hsend.
  destruct Hsend as (e & -> & _). reflexivity.
Qed.

(** A submit whose chat call returns: the reply is appended, then the
    counter updated. *)
Lemma handle_success fresh_uuid prompt g l s :
  has_messages l s ->
  fails (post (submit_request settings fresh_uuid prompt g s)) = false ->
  exists text,
    let s3 := <["messages" := VMsgs (l ++ [user prompt; assistant text])]>
                (at_call fresh_uuid prompt l s) in
    handle fresh_uuid prompt g s =
      match _update_question_count s3 with
      | Ret _ s4 | Rerun s4 => Rerun s4
      | Raise _ s4 => Ret tt s4
      end.
Proof.
  intros H Hfails. rewrite (handle_unfold _ _ _ l) by done.
  pose proof (ApiClientFacts.send_message_outcome settings post prompt
                (submit_session_id fresh_uuid s) g (at_call fresh_uuid prompt l s)) as Hsend.
  simpl in Hsend. rewrite request_at_call, Hfails in Hsend.
  destruct Hsend as (text & Hsend). exists text.
  unfold try_except, bind at 1. rewrite Hsend.
  unfold bind at 1, list_append, bind at 1, getattr, setattr.
  assert (at_call fresh_uuid prompt l s !! "messages"
          = Some (VMsgs (l ++ [user prompt]))) as ->.
  { unfold at_call. rewrite lookup_insert_ne by done. apply lookup_insert_eq. }
  rewrite <- app_assoc. simpl. unfold bind at 1.
  destruct (_update_question_count _); reflexivity.
Qed.

Lemma at_call_messages fresh_uuid prompt l s :
  has_messages (l ++ [user prompt]) (at_call fresh_uuid prompt l s).
Proof.
  unfold has_messages, Session.get_current_messages, get_default, at_call.
  rewrite lookup_insert_ne by done. by rewrite lookup_insert_eq.
Qed.

Lemma at_call_questions_used fresh_uuid prompt l s :
  at_call fresh_uuid prompt l s !! "questions_used" = s !! "questions_used".
Proof. unfold at_call. by rewrite !lookup_insert_ne by done. Qed.

(** C10. When the chat call of a submit fails, the submit returns with
    the session as it was when the call was made: the user message is
    the last of the messages, which are one more than before, no
    assistant message was appended, and the counter is as it was. *)
Theorem failed_submit_keeps_user_message fresh_uuid prompt g l s :
  has_messages l s ->
  fails (post (submit_request settings fresh_uuid prompt g s)) = true ->
  exists s',
    handle fresh_uuid prompt g s = Ret tt s' /\
    has_messages (l ++ [user prompt]) s' /\
    s' !! "questions_used" = s !! "questions_used".
Proof.
  intros H Hfails. exists (at_call fresh_uuid prompt l s).
  split; [by apply handle_failure|].
  split; [apply at_call_messages | apply at_call_questions_used].
Qed.

(** C4, as the code has it.  The counter is spent on success, not on
    attempt: after a submit whose chat call fails the counter is what
    it was, and after one whose call returns it is one more. *)
Theorem quota_spent_on_success fresh_uuid prompt g l c s :
  has_messages l s ->
  s !! "questions_used" = Some (VInt c) ->
  final_state (handle fresh_uuid prompt g s) !! "questions_used" =
    Some (VInt (if fails (post (submit_request settings fresh_uuid prompt g s))
                then c else c + 1)).
Proof.
  intros H Hused.
  destruct (fails _) eqn:Hfails.
  - rewrite (handle_failure _ _ _ l) by done. simpl.
    by rewrite at_call_questions_used.
  - destruct (handle_success _ _ _ l s H Hfails) as (text & ->).
    rewrite update_question_count_spec.
    rewrite lookup_insert_ne by done. rewrite at_call_questions_used, Hused.
    simpl. by rewrite lookup_insert_eq.
Qed.

(** A submit neither validates nor sanitizes: whatever the prompt, the
    call ends without an exception, the messages continue with a user
    message whose content is the prompt as typed, and the request sent
    to the chat API carries the same text. *)
Lemma submit_stores_prompt_verbatim fresh_uuid prompt g l s :
  has_messages l s ->
  exists s' rest,
    (handle fresh_uuid prompt g s = Ret tt s' \/
     handle fresh_uuid prompt g s = Rerun s') /\
    has_messages (l ++ user prompt :: rest) s' /\
    ApiClient.message
      (ApiClient.json (submit_request settings fresh_uuid prompt g s)) = prompt.
Proof.
  intros H.
  destruct (fails (post (submit_request settings fresh_uuid prompt g s))) eqn:Hfails.
  - exists (at_call fresh_uuid prompt l s), [].
    split; [left; by apply handle_failure|].
    split; [apply at_call_messages | reflexivity].
  - destruct (handle_success _ _ _ l s H Hfails) as (text & Hrun).
    simpl in Hrun. rewrite update_question_count_spec in Hrun.
    assert (forall s', s' !! "messages" = Some (VMsgs (l ++ user prompt :: [assistant text]))
                       -> has_messages (l ++ user prompt :: [assistant text]) s') as Hmsgs.
    { intros s' Hs'. unfold has_messages, Session.get_current_messages, get_default.
      by rewrite Hs'. }
    destruct (_ !! "questions_used") as [v|] in Hrun;
      [destruct (as_int v) in Hrun|];
      eexists; exists [assistant text]; (split; [|split; [|reflexivity]]);
      eauto; apply Hmsgs;
      rewrite ?(lookup_insert_ne _ "questions_used") by done;
      apply lookup_insert_eq.
Qed.

End ChatInterfaceFacts.

Lemma failed_submit_keeps_user_message_witness :
  let s := demo_session 0 3 in
  has_messages [] s /\
  fails (network_down (submit_request demo_settings "0b9d" "hi" true s)) = true /\
  exists s',
    _handle_user_input demo_settings network_down "0b9d" "hi" true s = Ret tt s' /\
    has_messages ([] ++ [{| role := "user"; content := "hi" |}]) s' /\
    s' !! "questions_used" = s !! "questions_used".
Proof.
  intros s.
  assert (has_messages [] s) as H by reflexivity.
  assert (fails (network_down (submit_request demo_settings "0b9d" "hi" true s)) = true)
    as Hfails by reflexivity.
  split; [exact H|]. split; [exact Hfails|].
  exact (failed_submit_keeps_user_message demo_settings network_down
           "0b9d" "hi" true [] s H Hfails).
Defined.

Lemma quota_spent_on_success_witness :
  let s := demo_session 0 3 in
  has_messages [] s /\
  s !! "questions_used" = Some (VInt 3) /\
  final_state (_handle_user_input demo_settings (network_replies "hello") "0b9d"
                 "hi" true s) !! "questions_used" = Some (VInt 4).
Proof.
  intros s.
  assert (has_messages [] s) as H by reflexivity.
  assert (s !! "questions_used" = Some (VInt 3)) as Hused by reflexivity.
  split; [exact H|]. split; [exact Hused|].
  exact (quota_spent_on_success demo_settings (network_replies "hello")
           "0b9d" "hi" true [] 3 s H Hused).
Defined.

(** At a failed call the counter stays at 3 instead of moving to 4. *)
Lemma quota_not_spent_on_failed_attempt : ~ quota_spent_on_attempt.
Proof.
  intros Hclaim.
  specialize (Hclaim demo_settings network_down "0b9d" "hi" true [] 3
                (demo_session 0 3) eq_refl eq_refl eq_refl).
  vm_compute in Hclaim. discriminate Hclaim.
Qed.

(** C5.  The validator of the repository refuses a blank message with
    [ValidationError] and escapes the angle brackets of a script tag,
    but [_handle_user_input] does not call it: a blank prompt is
    appended to the messages and the submit goes on to the chat call,
    and a prompt with a script tag is stored exactly as typed. *)
Theorem submit_skips_validation :
  let s := demo_session 0 3 in
  let script := "<script>alert(1)</script>hello" in
  Validators.validate_message "   "
    = inl (ValidationError "Message cannot be empty") /\
  _handle_user_input demo_settings network_down "0b9d" "   " true s
    = Ret tt (at_call "0b9d" "   " [] s) /\
  has_messages [{| role := "user"; content := "   " |}] (at_call "0b9d" "   " [] s) /\
  Validators.validate_message script
    = inr "&lt;script&gt;alert(1)&lt;/script&gt;hello" /\
  has_messages [{| role := "user"; content := script |};
                {| role := "assistant"; content := "hi there" |}]
    (final_state (_handle_user_input demo_settings (network_replies "hi there")
                    "0b9d" script true s)).
Proof. vm_compute. repeat split; reflexivity. Qed.

(** C6.  [_start_new_chat] empties the messages but assigns the session
    the identifier it already has: with an identifier in the session no
    new one is drawn, and the chat that starts runs under the old
    one. *)
Theorem start_new_chat_keeps_session_id (fresh_uuid : string) (sid : value)
    (s : session_state) :
  s !! "session_id" = Some sid ->
  _start_new_chat fresh_uuid s = Rerun (<["messages" := VMsgs []]> s) /\
  final_state (_start_new_chat fresh_uuid s) !! "session_id" = Some sid.
Proof.
  intros Hsid.
  assert (_start_new_chat fresh_uuid s = Rerun (<["messages" := VMsgs []]> s)) as ->.
  { unfold _start_new_chat, bind at 1, setattr at 1.
    unfold bind at 1. rewrite get_session_id_spec.
    unfold submit_session_id. rewrite lookup_insert_ne by done. rewrite Hsid. simpl.
    unfold bind, setattr, experimental_rerun.
    rewrite insert_insert_eq, insert_id; [done|].
    by rewrite lookup_insert_ne. }
  split; [done|]. simpl. by rewrite lookup_insert_ne.
Qed.

(** On the logged-in session the new chat keeps the old identifier,
    where [reset_session] installs the new one. *)
Lemma start_new_chat_keeps_session_id_witness :
  let s := logged_in_session in
  s !! "session_id" = Some (VStr "6f1c0a52") /\
  final_state (_start_new_chat "0b9d" s) !! "session_id" = Some (VStr "6f1c0a52") /\
  final_state (Session.reset_session "0b9d" 0 s) !! "session_id" = Some (VStr "0b9d").
Proof.
  intros s.
  assert (s !! "session_id" = Some (VStr "6f1c0a52")) as Hsid by reflexivity.
  split; [exact Hsid|].
  split; [exact (proj2 (start_new_chat_keeps_session_id "0b9d" _ s Hsid)) | reflexivity].
Defined.

End ChatInterfaceFacts.

(** ** Refreshing the token *)

Module AuthenticationFacts.
Import Authentication.

(** [logout] removes the access token and the user name, and nothing
    else. *)
Lemma logout_spec (s : session_state) :
  logout s = Rerun (delete "username" (delete "user_token" s)).
Proof.
  unfold logout, when, bind, contains, delattr, experimental_rerun, ret.
  destruct (s !! "user_token") as [token|] eqn:Htoken; simpl.
  - rewrite Htoken. rewrite lookup_delete_ne by done.
    destruct (s !! "username") as [name|] eqn:Hname; simpl.
    + rewrite lookup_delete_ne by done. by rewrite Hname.
    + rewrite (delete_id (delete _ _) "username"); [done|].
      by rewrite lookup_delete_ne.
  - rewrite (delete_id s "user_token") by done.
    destruct (s !! "username") as [name|] eqn:Hname; simpl.
    + by rewrite Hname.
    + by rewrite delete_id.
Qed.

Section AuthenticationFacts.
Variable initiate_auth : value -> Cognito.InitiateAuth.

Lemma logout_handler (s : session_state) :
  (logout;;; @ret bool false) s =
    Rerun (delete "username" (delete "user_token" s)).
Proof. unfold bind. by rewrite logout_spec. Qed.

(** With a refresh token in the session, every refresh ends in
    [logout]: when the provider's call raises, and also when it
    returns, because its result has no ["Username"] for
    [_handle_successful_auth] to read. *)
Lemma refresh_token_logs_out token (s : session_state) :
  s !! "refresh_token" = Some token -> truthy token = true ->
  refresh_token initiate_auth s =
    Rerun (delete "username" (delete "user_token" s)).
Proof.
  intros Htoken Htruthy.
  unfold refresh_token, try_except, bind at 1, get_default.
  rewrite Htoken. simpl. rewrite Htruthy.
  unfold bind at 1, Cognito.refresh_token.
  destruct (initiate_auth token) as [code message|message|access expires].
  - unfold raise. cbv beta iota. apply logout_handler.
  - unfold raise. cbv beta iota. apply logout_handler.
  - unfold ret at 1. cbv beta iota.
    unfold _handle_successful_auth, bind at 1 2, subscript at 1.
    rewrite lookup_insert_eq. unfold ret at 1. cbv beta iota.
    unfold setattr at 1. unfold bind at 1, subscript.
    rewrite !lookup_insert_ne by done. rewrite lookup_empty.
    unfold raise, bind at 1. cbv beta iota. rewrite logout_handler.
    apply (f_equal Rerun). apply map_eq; intros name.
    destruct (decide (name = "username")) as [->|Hname];
      [by rewrite !lookup_delete_eq|rewrite !(lookup_delete_ne _ "username") by done].
    destruct (decide (name = "user_token")) as [->|Htok];
      [by rewrite !lookup_delete_eq|rewrite !(lookup_delete_ne _ "user_token") by done].
    by rewrite lookup_insert_ne.
Qed.

(** C7, as the code has it.  A refresh whose underlying call raises
    logs the user out: the access token and the user name are removed,
    the session is no longer authenticated, and every other entry,
    the refresh token among them, is left as it was. *)
Theorem failed_refresh_logs_out token (s : session_state) :
  s !! "refresh_token" = Some token -> truthy token = true ->
  refresh_call_raises (initiate_auth token) = true ->
  let s' := final_state (refresh_token initiate_auth s) in
  s' !! "user_token" = None /\ s' !! "username" = None /\
  is_authenticated s' = Ret false s' /\
  (forall name, name <> "user_token" -> name <> "username" ->
                s' !! name = s !! name) /\
  s' !! "refresh_token" = Some token.
Proof.
  intros Htoken Htruthy _ s'. subst s'.
  rewrite (refresh_token_logs_out token) by done. simpl.
  assert (delete "username" (delete "user_token" s) !! "user_token" = None) as Hnone.
  { rewrite lookup_delete_ne by done. apply lookup_delete_eq. }
  split; [done|]. split; [apply lookup_delete_eq|].
  split; [unfold is_authenticated, bind, get_default, ret; by rewrite Hnone|].
  split.
  - intros name Htok Hname. by rewrite !lookup_delete_ne by done.
  - by rewrite !lookup_delete_ne by done.
Qed.

End AuthenticationFacts.

Lemma failed_refresh_logs_out_witness :
  let s := refreshable_session in
  let s' := final_state (refresh_token refresh_rejected s) in
  s !! "refresh_token" = Some (VStr "stale-refresh-token") /\
  s' !! "user_token" = None /\ s' !! "username" = None /\
  s' !! "refresh_token" = Some (VStr "stale-refresh-token").
Proof.
  intros s s'.
  assert (s !! "refresh_token" = Some (VStr "stale-refresh-token")) as Htoken
    by reflexivity.
  pose proof (failed_refresh_logs_out refresh_rejected _ s Htoken eq_refl eq_refl)
    as (Htok & Hname & _ & _ & Hrefresh).
  split; [exact Htoken|]. split; [exact Htok|]. split; [exact Hname|exact Hrefresh].
Defined.

(** After the failed refresh the refresh token is still in the
    session. *)
Lemma failed_refresh_keeps_refresh_token : ~ failed_refresh_clears_credential.
Proof.
  intros Hclaim.
  destruct (Hclaim refresh_rejected (VStr "stale-refresh-token")
              refreshable_session eq_refl eq_refl eq_refl) as (_ & _ & Hrefresh).
  vm_compute in Hrefresh. discriminate Hrefresh.
Qed.

End AuthenticationFacts.

(** * Further properties *)

(** ** The quota window, continued *)

Module RateLimitMore.
Import RateLimit.
Section RateLimitMore.
Variable settings : Settings.

Local Abbreviation check := (check_rate_limit settings).
Local Abbreviation window := (timedelta_hours (RATE_LIMIT_WINDOW_HOURS settings)).
Local Abbreviation restart now s :=
  (<["questions_used" := VInt 0]> (<["rate_limit_start" := VTime now]> s)).

Lemma restart_twice now (s : session_state) :
  restart now (restart now s) = restart now s.
Proof.
  apply map_eq; intros k. rewrite !lookup_insert. repeat case_decide; congruence.
Qed.

(** A check right at the start of a window. *)
Lemma check_restarted now g (s : session_state) :
  check now g (restart now s) = Ret (0 <? tier_limit settings g) (restart now s).
Proof.
  destruct (Z.gtb_spec (now - now) window) as [Hgt|Hle].
  - rewrite (RateLimitFacts.check_reset settings now now) by
      (rewrite ?lookup_insert_ne by done; rewrite ?lookup_insert_eq; done || lia).
    by rewrite restart_twice.
  - rewrite (RateLimitFacts.check_same_window settings now 0); [done| |done].
    split; [|by rewrite lookup_insert_eq].
    rewrite lookup_insert_ne by done. by rewrite lookup_insert_eq.
Qed.

(** The three ways a check can go, by the stored window start. *)
Lemma check_outcome now g (s : session_state) :
  check now g s = Ret (0 <? tier_limit settings g) (restart now s) \/
  final_state (check now g s) = s.
Proof.
  destruct (s !! "rate_limit_start") as [start|] eqn:Hstart.
  - destruct (RateLimitFacts.check_final_state settings now g s) as [H|H]; [by right|].
    destruct start as [| | | |t0|];
      try (right; unfold check_rate_limit, datetime_sub, when, bind, contains,
             getattr, raise; rewrite Hstart; simpl; rewrite Hstart; reflexivity).
    destruct (Z.gtb_spec (now - t0) window) as [Hgt|Hle].
    + left. apply (RateLimitFacts.check_reset settings t0); [done|lia].
    + right. unfold check_rate_limit, datetime_sub, int_lt, when, bind, contains,
        getattr, ret, raise. rewrite Hstart. simpl. rewrite Hstart. simpl.
      destruct (Z.gtb_spec (now - t0) window) as [Hgt|_]; [lia|]. simpl.
      destruct (s !! "questions_used") as [used|]; [|reflexivity].
      destruct (as_int used); reflexivity.
  - left. by apply RateLimitFacts.check_first.
Qed.

(** X1. Checking again at the same instant changes nothing: the second
    check ends as the first did, with the session the first left. *)
Theorem check_is_idempotent (now : Z) (g : bool) (s : session_state) :
  check now g (final_state (check now g s)) = check now g s.
Proof.
  destruct (check_outcome now g s) as [H|H].
  - rewrite H. simpl. apply check_restarted.
  - by rewrite H.
Qed.


(** X3. [reset_session] puts the counter back to 0 but leaves the
    window where it is: in the same window the next check answers as
    for an unused quota, whatever the count was, and the access token
    and user name are as before. *)
Theorem reset_session_refills_quota (t0 c now reset_time : Z) (fresh_uuid : string)
    (g : bool) (s : session_state) :
  in_window t0 c s -> same_window settings t0 now ->
  let s1 := final_state (Session.reset_session fresh_uuid reset_time s) in
  in_window t0 0 s1 /\
  check now g s1 = Ret (0 <? tier_limit settings g) s1 /\
  s1 !! "user_token" = s !! "user_token" /\ s1 !! "username" = s !! "username".
Proof.
  intros [Hstart _] Hwin s1. subst s1.
  unfold Session.reset_session, bind, setattr. simpl.
  assert (in_window t0 0
            (<["last_reset_time" := VTime reset_time]>
               (<["questions_used" := VInt 0]>
                  (<["session_id" := VStr fresh_uuid]>
                     (<["messages" := VMsgs []]> s))))) as Hin.
  { split.
    - by rewrite !lookup_insert_ne by done.
    - rewrite lookup_insert_ne by done. by rewrite lookup_insert_eq. }
  split; [done|]. split.
  - by rewrite (RateLimitFacts.check_same_window settings t0 0).
  - by rewrite !lookup_insert_ne by done.
Qed.

End RateLimitMore.


Lemma reset_session_refills_quota_witness :
  let s := demo_session 0 10 in
  let s1 := final_state (Session.reset_session "0b9d" 7 s) in
  in_window 0 10 s /\ same_window demo_settings 0 8 /\
  check_rate_limit demo_settings 8 true s = Ret false s /\
  check_rate_limit demo_settings 8 true s1 = Ret true s1.
Proof.
  intros s s1.
  assert (in_window 0 10 s) as Hin by (split; reflexivity).
  assert (same_window demo_settings 0 8) as Hwin by (vm_compute; discriminate).
  split; [exact Hin|]. split; [exact Hwin|]. split; [vm_compute; reflexivity|].
  exact (proj1 (proj2 (reset_session_refills_quota demo_settings 0 10 8 7 "0b9d"
                         true s Hin Hwin))).
Defined.

End RateLimitMore.

(** ** The session utilities, continued *)

Module SessionMore.
Import Session.

Lemma initialize_marked fresh_uuid now (s : session_state) :
  is_Some (s !! "initialized") ->
  initialize_session_state fresh_uuid now s = Ret tt s.
Proof.
  intros [v Hv]. unfold initialize_session_state, when, bind, contains, ret.
  by rewrite Hv.
Qed.

Lemma initialize_unmarked fresh_uuid now (s : session_state) :
  s !! "initialized" = None ->
  initialize_session_state fresh_uuid now s =
    Ret tt (<["guest_mode" := VBool true]>
              (<["last_reset_time" := VTime now]>
                 (<["questions_used" := VInt 0]>
                    (<["messages" := VMsgs []]>
                       (<["session_id" := VStr fresh_uuid]>
                          (<["initialized" := VBool true]> s)))))).
Proof.
  intros Hv. unfold initialize_session_state, when, bind, contains, setattr, ret.
  by rewrite Hv.
Qed.

(** X4. [initialize_session_state] works once: on a session without
    the mark it installs the new identifier, no messages, a zero
    counter and guest mode; on a marked session it changes nothing, so
    a second call, with whatever identifier and time, is without
    effect. *)
Theorem initialize_session_state_once (fresh_uuid fresh_uuid' : string)
    (now now' : Z) (s : session_state) :
  let s1 := final_state (initialize_session_state fresh_uuid now s) in
  initialize_session_state fresh_uuid' now' s1 = Ret tt s1 /\
  ((is_Some (s !! "initialized") /\ s1 = s) \/
   (s !! "initialized" = None /\
    s1 !! "session_id" = Some (VStr fresh_uuid) /\
    has_messages [] s1 /\
    s1 !! "questions_used" = Some (VInt 0) /\
    s1 !! "guest_mode" = Some (VBool true))).
Proof.
  intros s1. subst s1.
  destruct (s !! "initialized") as [v|] eqn:Hinit.
  - rewrite (initialize_marked fresh_uuid now s) by eauto. simpl.
    split; [apply initialize_marked; eauto | left; eauto].
  - rewrite (initialize_unmarked fresh_uuid now s) by done. simpl. split.
    + apply initialize_marked.
      repeat (rewrite lookup_insert_ne by done). rewrite lookup_insert_eq. eauto.
    + right. split; [done|].
      unfold has_messages, Session.get_current_messages, get_default.
      repeat split;
        repeat (rewrite lookup_insert_ne by done); by rewrite lookup_insert_eq.
Qed.

(** X5. The session identifier is stable: once [get_session_id] has
    answered, every later call gives the same identifier and leaves the
    session alone, whatever new identifier was at hand. *)
Theorem get_session_id_is_stable (fresh_uuid fresh_uuid' : string)
    (s : session_state) :
  get_session_id fresh_uuid' (final_state (get_session_id fresh_uuid s))
  = get_session_id fresh_uuid s.
Proof.
  rewrite !ChatInterfaceFacts.get_session_id_spec. simpl.
  assert (submit_session_id fresh_uuid'
            (<["session_id" := submit_session_id fresh_uuid s]> s)
          = submit_session_id fresh_uuid s) as ->.
  { unfold submit_session_id at 1. by rewrite lookup_insert_eq. }
  by rewrite insert_insert_eq.
Qed.

Section SessionLimits.
Variable settings : Settings.

Lemma session_limit_spec (s : session_state) :
  session_limit settings s =
    Ret (RateLimit.tier_limit settings (truthy (default VNone (s !! "guest_mode")))) s.
Proof. reflexivity. Qed.

(** X6. [is_rate_limited] and [get_remaining_questions] tell the same
    story: with a numeric counter both return, the session is rate
    limited exactly when no question remains, and the remaining number
    is never negative and, for a non-negative count, never above the
    limit. *)
Theorem rate_limited_iff_none_remaining (used : Z) (s : session_state) :
  as_int (default (VInt 0) (s !! "questions_used")) = Some used ->
  exists limited remaining limit,
    is_rate_limited settings s = Ret limited s /\
    get_remaining_questions settings s = Ret remaining s /\
    session_limit settings s = Ret limit s /\
    (limited = true <-> remaining = 0) /\
    0 <= remaining /\
    (0 <= used -> remaining <= Z.max 0 limit).
Proof.
  intros Hused.
  exists (RateLimit.tier_limit settings (truthy (default VNone (s !! "guest_mode")))
          <=? used),
         (Z.max 0 (RateLimit.tier_limit settings
                     (truthy (default VNone (s !! "guest_mode"))) - used)),
         (RateLimit.tier_limit settings (truthy (default VNone (s !! "guest_mode")))).
  unfold is_rate_limited, get_remaining_questions, bind, get_default.
  rewrite session_limit_spec, Hused.
  repeat split; lia.
Qed.

(** X7. Each counted question lowers the remaining number by one,
    until it is zero, where it stays. *)
Theorem counted_question_lowers_remaining (remaining : Z) (s : session_state) :
  get_remaining_questions settings s = Ret remaining s ->
  exists s',
    increment_question_count s = Ret tt s' /\
    get_remaining_questions settings s' = Ret (Z.max 0 (remaining - 1)) s'.
Proof.
  unfold get_remaining_questions, bind at 1 2, get_default at 1.
  rewrite session_limit_spec.
  destruct (as_int (default (VInt 0) (s !! "questions_used"))) as [used|] eqn:Hused;
    [|discriminate].
  intros [= <-].
  assert (increment_question_count s = Ret tt (<["questions_used" := VInt (used + 1)]> s))
    as ->.
  { unfold increment_question_count, incr_attr, when, bind, contains, getattr,
      setattr, ret.
    destruct (s !! "questions_used") as [v|] eqn:Hv; simpl in *.
    - rewrite Hv, Hused. done.
    - injection Hused as <-. rewrite lookup_insert_eq. simpl.
      by rewrite insert_insert_eq. }
  eexists. split; [reflexivity|].
  unfold bind, get_default. rewrite session_limit_spec. simpl.
  rewrite lookup_insert_eq, lookup_insert_ne by done. simpl.
  f_equal. lia.
Qed.

(** X8. In a session that stores its tier, the window check and
    [is_rate_limited] agree: inside the window the check passes exactly
    when the session is not rate limited. *)
Theorem check_agrees_with_is_rate_limited (t0 c now : Z) (flag : value)
    (s : session_state) :
  RateLimit.in_window t0 c s -> RateLimit.same_window settings t0 now ->
  s !! "guest_mode" = Some flag ->
  exists limited,
    is_rate_limited settings s = Ret limited s /\
    RateLimit.check_rate_limit settings now (truthy flag) s = Ret (negb limited) s.
Proof.
  intros Hin Hwin Hflag.
  exists (RateLimit.tier_limit settings (truthy flag) <=? c).
  rewrite (RateLimitFacts.check_same_window settings t0 c) by done.
  destruct Hin as [_ Hused].
  unfold is_rate_limited, bind, get_default.
  rewrite session_limit_spec, Hused, Hflag. simpl.
  split; [done|]. f_equal. lia.
Qed.

End SessionLimits.

Lemma rate_limited_iff_none_remaining_witness :
  let s := <["guest_mode" := VBool true]> (demo_session 0 10) in
  as_int (default (VInt 0) (s !! "questions_used")) = Some 10 /\
  exists limited remaining limit,
    is_rate_limited demo_settings s = Ret limited s /\
    get_remaining_questions demo_settings s = Ret remaining s /\
    session_limit demo_settings s = Ret limit s /\
    (limited = true <-> remaining = 0) /\
    0 <= remaining /\
    (0 <= 10 -> remaining <= Z.max 0 limit).
Proof.
  intros s.
  assert (as_int (default (VInt 0) (s !! "questions_used")) = Some 10) as H
    by reflexivity.
  split; [exact H|]. exact (rate_limited_iff_none_remaining demo_settings 10 s H).
Defined.

Lemma counted_question_lowers_remaining_witness :
  let s := <["guest_mode" := VBool true]> (demo_session 0 9) in
  get_remaining_questions demo_settings s = Ret 1 s /\
  exists s',
    increment_question_count s = Ret tt s' /\
    get_remaining_questions demo_settings s' = Ret (Z.max 0 (1 - 1)) s'.
Proof.
  intros s.
  assert (get_remaining_questions demo_settings s = Ret 1 s) as H
    by (vm_compute; reflexivity).
  split; [exact H|]. exact (counted_question_lowers_remaining demo_settings 1 s H).
Defined.

Lemma check_agrees_with_is_rate_limited_witness :
  let s := <["guest_mode" := VBool true]> (demo_session 0 10) in
  RateLimit.in_window 0 10 s /\ RateLimit.same_window demo_settings 0 5 /\
  s !! "guest_mode" = Some (VBool true) /\
  exists limited,
    is_rate_limited demo_settings s = Ret limited s /\
    RateLimit.check_rate_limit demo_settings 5 (truthy (VBool true)) s
    = Ret (negb limited) s.
Proof.
  intros s.
  assert (RateLimit.in_window 0 10 s) as Hin by (split; reflexivity).
  assert (RateLimit.same_window demo_settings 0 5) as Hwin by (vm_compute; discriminate).
  assert (s !! "guest_mode" = Some (VBool true)) as Hflag by reflexivity.
  split; [exact Hin|]. split; [exact Hwin|]. split; [exact Hflag|].
  exact (check_agrees_with_is_rate_limited demo_settings 0 10 5 _ s Hin Hwin Hflag).
Defined.

End SessionMore.

(** ** Submitting a message, continued *)

Module ChatInterfaceMore.
Import ChatInterface.
Section ChatInterfaceMore.
Variable settings : Settings.
Variable post : ApiClient.Request -> ApiClient.PostResult.

Local Abbreviation handle := (_handle_user_input settings post).
Local Abbreviation render := (_render_chat_input settings post).
Local Abbreviation user prompt := {| role := "user"; content := prompt |}.
Local Abbreviation assistant text := {| role := "assistant"; content := text |}.
Local Abbreviation limit g := (RateLimit.tier_limit settings g).

(** The reply [send_message] returns is the ["response"] member of the
    answer. *)
Lemma send_message_reply message sid g text (s : session_state) :
  fails (post (request_for settings message sid g s)) = false ->
  reply_text (post (request_for settings message sid g s)) = Some text ->
  ApiClient.send_message settings post message sid g s = Ret text s.
Proof.
  unfold ApiClient.send_message, ApiClient._get_headers, ApiClient.try_except_request,
    bind, get_default, ret.
  change (post _) with (post (request_for settings message sid g s)).
  destruct (post (request_for settings message sid g s)) as [str_e|response]; simpl;
    [discriminate|].
  destruct (ApiClient.status_code response =? 429); simpl; [discriminate|].
  unfold ApiClient.raise_for_status, ApiClient.json_response.
  destruct ((400 <=? ApiClient.status_code response)
            && (ApiClient.status_code response <? 500)) eqn:H4.
  { replace ((400 <=? ApiClient.status_code response)
             && (ApiClient.status_code response <? 600)) with true by lia.
    discriminate. }
  destruct ((500 <=? ApiClient.status_code response)
            && (ApiClient.status_code response <? 600)) eqn:H5.
  { replace ((400 <=? ApiClient.status_code response)
             && (ApiClient.status_code response <? 600)) with true by lia.
    discriminate. }
  simpl. destruct (ApiClient.body response) as [error|members]; simpl.
  - intros _ [=].
  - intros _ ->. reflexivity.
Qed.

(** X9. A submit whose chat call returns appends the user message and
    then the reply, in this order and with the reply text as the API
    gave it, counts one question and asks for a rerun. *)
Theorem successful_submit_appends_reply fresh_uuid prompt g l c text
    (s : session_state) :
  has_messages l s ->
  s !! "questions_used" = Some (VInt c) ->
  fails (post (submit_request settings fresh_uuid prompt g s)) = false ->
  reply_text (post (submit_request settings fresh_uuid prompt g s)) = Some text ->
  exists s',
    handle fresh_uuid prompt g s = Rerun s' /\
    has_messages (l ++ [user prompt; assistant text]) s' /\
    s' !! "questions_used" = Some (VInt (c + 1)) /\
    s' !! "session_id" = Some (submit_session_id fresh_uuid s).
Proof.
  intros Hmsgs Hused Hfails Hreply.
  rewrite (ChatInterfaceFacts.handle_unfold _ _ _ _ _ l) by done.
  unfold try_except, bind at 1.
  rewrite (send_message_reply prompt _ g text)
    by (rewrite ChatInterfaceFacts.request_at_call; done).
  unfold bind at 1, list_append, bind at 1, getattr, setattr.
  assert (at_call fresh_uuid prompt l s !! "messages"
          = Some (VMsgs (l ++ [user prompt]))) as ->.
  { unfold at_call. rewrite lookup_insert_ne by done. apply lookup_insert_eq. }
  rewrite <- app_assoc. simpl. unfold bind at 1.
  rewrite ChatInterfaceFacts.update_question_count_spec.
  rewrite lookup_insert_ne by done.
  rewrite ChatInterfaceFacts.at_call_questions_used, Hused. simpl.
  eexists. split; [reflexivity|]. split; [|split].
  - unfold has_messages, Session.get_current_messages, get_default.
    rewrite lookup_insert_ne by done. by rewrite lookup_insert_eq.
  - by rewrite lookup_insert_eq.
  - rewrite !lookup_insert_ne by done. unfold at_call. by rewrite lookup_insert_eq.
Qed.


(** X10. At the limit, inside the window, the chat input is closed:
    whatever was typed, nothing is submitted and the session stays as it
    is. *)
Theorem chat_input_closed_at_limit t0 c now fresh_uuid prompt g
    (s : session_state) :
  RateLimit.in_window t0 c s -> RateLimit.same_window settings t0 now ->
  limit g <= c ->
  render now fresh_uuid prompt g s = Ret tt s.
Proof.
  intros Hin Hwin Hfull. unfold _render_chat_input, bind.
  rewrite (RateLimitFacts.check_same_window settings t0 c) by done.
  by destruct (Z.ltb_spec c (limit g)); [lia|].
Qed.



End ChatInterfaceMore.

(** X26. Starting a new chat empties the messages and keeps everything
    else but the session identifier: the counter, the window and the
    credentials are as before, so a new chat does not refill the
    quota. *)
Theorem start_new_chat_keeps_quota (fresh_uuid : string) (s : session_state) :
  exists s',
    _start_new_chat fresh_uuid s = Rerun s' /\
    has_messages [] s' /\
    s' !! "session_id" = Some (submit_session_id fresh_uuid s) /\
    forall name, name <> "messages" -> name <> "session_id" -> s' !! name = s !! name.
Proof.
  unfold _start_new_chat, bind at 1, setattr at 1.
  unfold bind at 1. rewrite ChatInterfaceFacts.get_session_id_spec.
  unfold bind, setattr, experimental_rerun.
  eexists. split; [reflexivity|].
  assert (submit_session_id fresh_uuid (<["messages" := VMsgs []]> s)
          = submit_session_id fresh_uuid s) as ->.
  { unfold submit_session_id. by rewrite lookup_insert_ne. }
  split; [|split].
  - unfold has_messages, Session.get_current_messages, get_default.
    rewrite !lookup_insert_ne by done. by rewrite lookup_insert_eq.
  - by rewrite lookup_insert_eq.
  - intros name Hm Hs. by rewrite !lookup_insert_ne by done.
Qed.

(** X12. With the default limits, in a session that stores its tier,
    the number the header shows is the number
    [get_remaining_questions] gives. *)
Theorem header_shows_remaining_questions (api_url : string) (flag : value)
    (s : session_state) :
  s !! "guest_mode" = Some flag ->
  _get_remaining_questions s
  = Session.get_remaining_questions (default_settings api_url) s.
Proof.
  intros Hflag.
  unfold _get_remaining_questions, Session.get_remaining_questions,
    Session.session_limit, bind, get_default, ret.
  by rewrite Hflag.
Qed.

Lemma successful_submit_appends_reply_witness :
  let s := demo_session 0 3 in
  let post := network_replies "hello" in
  has_messages [] s /\
  s !! "questions_used" = Some (VInt 3) /\
  fails (post (submit_request demo_settings "0b9d" "hi" true s)) = false /\
  reply_text (post (submit_request demo_settings "0b9d" "hi" true s)) = Some "hello" /\
  exists s',
    _handle_user_input demo_settings post "0b9d" "hi" true s = Rerun s' /\
    has_messages ([] ++ [{| role := "user"; content := "hi" |};
                         {| role := "assistant"; content := "hello" |}]) s' /\
    s' !! "questions_used" = Some (VInt (3 + 1)) /\
    s' !! "session_id" = Some (submit_session_id "0b9d" s).
Proof.
  intros s post.
  assert (has_messages [] s) as H1 by reflexivity.
  assert (s !! "questions_used" = Some (VInt 3)) as H2 by reflexivity.
  assert (fails (post (submit_request demo_settings "0b9d" "hi" true s)) = false)
    as H3 by reflexivity.
  assert (reply_text (post (submit_request demo_settings "0b9d" "hi" true s))
          = Some "hello") as H4 by reflexivity.
  split; [exact H1|]. split; [exact H2|]. split; [exact H3|]. split; [exact H4|].
  exact (successful_submit_appends_reply demo_settings post "0b9d" "hi" true
           [] 3 "hello" s H1 H2 H3 H4).
Defined.

Lemma chat_input_closed_at_limit_witness :
  let s := demo_session 0 10 in
  RateLimit.in_window 0 10 s /\ RateLimit.same_window demo_settings 0 5 /\
  RateLimit.tier_limit demo_settings true <= 10 /\
  _render_chat_input demo_settings (network_replies "hello") 5 "0b9d"
    (Some "one more") true s = Ret tt s.
Proof.
  intros s.
  assert (RateLimit.in_window 0 10 s) as H1 by (split; reflexivity).
  assert (RateLimit.same_window demo_settings 0 5) as H2 by (vm_compute; discriminate).
  assert (RateLimit.tier_limit demo_settings true <= 10) as H3
    by (vm_compute; discriminate).
  split; [exact H1|]. split; [exact H2|]. split; [exact H3|].
  exact (chat_input_closed_at_limit demo_settings (network_replies "hello")
           0 10 5 "0b9d" (Some "one more") true s H1 H2 H3).
Defined.


Lemma header_shows_remaining_questions_witness :
  let s := <["guest_mode" := VBool true]> (demo_session 0 4) in
  s !! "guest_mode" = Some (VBool true) /\
  _get_remaining_questions s = Ret 6 s /\
  _get_remaining_questions s
  = Session.get_remaining_questions (default_settings "https://api.example") s.
Proof.
  intros s.
  assert (s !! "guest_mode" = Some (VBool true)) as H by reflexivity.
  split; [exact H|]. split; [vm_compute; reflexivity|].
  exact (header_shows_remaining_questions "https://api.example" _ s H).
Defined.

End ChatInterfaceMore.

(** ** Logging in and out *)

Module AuthenticationMore.
Import Authentication.

Local Abbreviation logged_out s := (delete "username" (delete "user_token" s)).

(** X13. [logout] is idempotent: a second logout ends as the first, and
    after a logout the session is not authenticated and gives neither a
    token nor a user name. *)
Theorem logout_is_idempotent (s : session_state) :
  let s' := final_state (logout s) in
  logout s' = logout s /\
  is_authenticated s' = Ret false s' /\
  get_token s' = Ret VNone s' /\
  get_username s' = Ret VNone s'.
Proof.
  intros s'. subst s'. rewrite !AuthenticationFacts.logout_spec. simpl.
  assert (logged_out s !! "user_token" = None) as Htoken.
  { rewrite lookup_delete_ne by done. apply lookup_delete_eq. }
  assert (logged_out s !! "username" = None) as Hname by apply lookup_delete_eq.
  split; [|split; [|split]].
  - f_equal. rewrite (delete_id _ "user_token") by done. by rewrite delete_id.
  - unfold is_authenticated, bind, get_default, ret. by rewrite Htoken.
  - unfold get_token, get_default. by rewrite Htoken.
  - unfold get_username, is_authenticated, bind, get_default, ret. by rewrite Htoken.
Qed.

Section AuthenticationMore.
Variable initiate_auth : value -> Cognito.InitiateAuth.
Variable password_auth : string -> string -> Cognito.PasswordAuth.

Local Abbreviation login := (render_login_form password_auth).

(** X14. A login that is not accepted (form not submitted, a blank
    field, wrong password, unconfirmed account, a challenge, the
    provider unreachable) leaves the session exactly as it was. *)
Theorem failed_login_changes_nothing submit_button username password
    (s : session_state) :
  login_accepted password_auth submit_button username password = None ->
  login submit_button username password s = Ret tt s.
Proof.
  unfold login_accepted, render_login_form.
  destruct (submit_button && negb (String.eqb username "")
            && negb (String.eqb password "")); [|done].
  unfold try_except, bind, Cognito.authenticate.
  destruct (password_auth username password)
    as [code message|message|name|access refresh expires]; try discriminate; intros _.
  - destruct (String.eqb code "NotAuthorizedException"); [done|].
    by destruct (String.eqb code "UserNotConfirmedException").
  - done.
  - done.
Qed.

(** An accepted login, step by step. *)
Lemma accepted_login submit_button username password access (s : session_state) :
  login_accepted password_auth submit_button username password = Some access ->
  login submit_button username password s =
    Rerun (<["username" := VStr username]> (<["user_token" := VStr access]> s)).
Proof.
  unfold login_accepted, render_login_form.
  destruct (submit_button && negb (String.eqb username "")
            && negb (String.eqb password "")); [|done].
  unfold try_except, bind at 1, Cognito.authenticate.
  destruct (password_auth username password)
    as [code message|message|name|access' refresh expires]; try discriminate.
  intros [= ->].
  unfold ret at 1. cbv beta iota.
  unfold _handle_successful_auth, bind at 1 2, subscript at 1.
  rewrite lookup_insert_eq. unfold ret at 1. cbv beta iota.
  unfold setattr at 1. unfold bind at 1 2, subscript.
  rewrite !lookup_insert_ne by done. rewrite lookup_insert_eq.
  unfold ret. cbv beta iota. reflexivity.
Qed.

(** X15. An accepted login stores the access token and the name typed,
    and nothing else: the session is authenticated under that name (for
    a non-empty token), and the refresh token the provider issued is not
    kept. *)
Theorem login_stores_token_and_name submit_button username password access
    (s : session_state) :
  login_accepted password_auth submit_button username password = Some access ->
  access <> "" ->
  let s' := final_state (login submit_button username password s) in
  is_authenticated s' = Ret true s' /\
  get_token s' = Ret (VStr access) s' /\
  get_username s' = Ret (VStr username) s' /\
  forall name, name <> "user_token" -> name <> "username" -> s' !! name = s !! name.
Proof.
  intros Hlogin Haccess s'. subst s'.
  rewrite (accepted_login _ _ _ access) by done. simpl.
  set (s' := <["username" := VStr username]> (<["user_token" := VStr access]> s)).
  assert (s' !! "user_token" = Some (VStr access)) as Htoken.
  { unfold s'. rewrite lookup_insert_ne by done. apply lookup_insert_eq. }
  assert (s' !! "username" = Some (VStr username)) as Hname
    by apply lookup_insert_eq.
  assert (String.eqb access "" = false) as Hne
    by (destruct (String.eqb_spec access ""); done).
  unfold get_username, is_authenticated, get_token, bind, get_default, ret.
  rewrite Htoken. simpl. rewrite Hne. simpl. rewrite Hname. simpl.
  repeat split; try done.
  intros name Htok Hn. unfold s'. by rewrite !lookup_insert_ne by done.
Qed.

(** X16. Logging in and out again is a round trip: from a session
    without credentials, an accepted login followed by [logout] gives
    back the session as it was. *)
Theorem login_then_logout_restores submit_button username password access
    (s : session_state) :
  login_accepted password_auth submit_button username password = Some access ->
  s !! "user_token" = None -> s !! "username" = None ->
  final_state (logout (final_state (login submit_button username password s))) = s.
Proof.
  intros Hlogin Htoken Hname.
  rewrite (accepted_login _ _ _ access) by done. simpl.
  rewrite AuthenticationFacts.logout_spec. simpl.
  apply map_eq; intros name.
  destruct (decide (name = "username")) as [->|Hn]; [by rewrite lookup_delete_eq|].
  rewrite lookup_delete_ne by done.
  destruct (decide (name = "user_token")) as [->|Ht]; [by rewrite lookup_delete_eq|].
  rewrite lookup_delete_ne by done. by rewrite !lookup_insert_ne.
Qed.

(** Without a refresh token in the session, [refresh_token] does not
    reach the provider. *)
Lemma refresh_without_token (s : session_state) :
  truthy (default VNone (s !! "refresh_token")) = false ->
  refresh_token initiate_auth s = Ret false s.
Proof.
  intros H. unfold refresh_token, try_except, bind, get_default. by rewrite H.
Qed.

(** X17. After a login the token cannot be refreshed: the login kept no
    refresh token, so in a session that had none [refresh_token] returns
    [False] without asking the provider and without changing
    anything. *)
Theorem refresh_after_login_does_nothing submit_button username password access
    (s : session_state) :
  login_accepted password_auth submit_button username password = Some access ->
  s !! "refresh_token" = None ->
  let s' := final_state (login submit_button username password s) in
  refresh_token initiate_auth s' = Ret false s'.
Proof.
  intros Hlogin Hnone s'. subst s'.
  rewrite (accepted_login _ _ _ access) by done. simpl.
  apply refresh_without_token.
  by rewrite !lookup_insert_ne, Hnone by done.
Qed.

(** X18. Even a refresh the provider accepts logs the user out: the
    result of the provider carries no user name, so storing it fails
    after the new token was written, and the error path removes token
    and name. *)
Theorem accepted_refresh_logs_out token access expires (s : session_state) :
  s !! "refresh_token" = Some token -> truthy token = true ->
  initiate_auth token = Cognito.AuthenticationResult access expires ->
  let s' := final_state (refresh_token initiate_auth s) in
  s' = logged_out s /\ is_authenticated s' = Ret false s'.
Proof.
  intros Htoken Htruthy _ s'. subst s'.
  rewrite (AuthenticationFacts.refresh_token_logs_out initiate_auth token) by done.
  simpl. split; [done|].
  unfold is_authenticated, bind, get_default, ret.
  rewrite lookup_delete_ne by done. by rewrite lookup_delete_eq.
Qed.

End AuthenticationMore.

Lemma failed_login_changes_nothing_witness :
  login_accepted one_user true "alice" "wrong" = None /\
  render_login_form one_user true "alice" "wrong" guest_session = Ret tt guest_session.
Proof.
  assert (login_accepted one_user true "alice" "wrong" = None) as H by reflexivity.
  split; [exact H|].
  exact (failed_login_changes_nothing one_user true "alice" "wrong" guest_session H).
Defined.

Lemma login_stores_token_and_name_witness :
  let s' := final_state (render_login_form one_user true "alice" "correct horse"
                           guest_session) in
  login_accepted one_user true "alice" "correct horse" = Some "access-1" /\
  is_authenticated s' = Ret true s' /\
  get_username s' = Ret (VStr "alice") s'.
Proof.
  intros s'.
  assert (login_accepted one_user true "alice" "correct horse" = Some "access-1")
    as H by reflexivity.
  assert ("access-1" <> "") as Hne by discriminate.
  pose proof (login_stores_token_and_name one_user true "alice" "correct horse"
                "access-1" guest_session H Hne) as (Hauth & _ & Hname & _).
  split; [exact H|]. split; [exact Hauth | exact Hname].
Defined.

Lemma login_then_logout_restores_witness :
  login_accepted one_user true "alice" "correct horse" = Some "access-1" /\
  guest_session !! "user_token" = None /\ guest_session !! "username" = None /\
  final_state (logout (final_state (render_login_form one_user true "alice"
                                      "correct horse" guest_session)))
  = guest_session.
Proof.
  assert (login_accepted one_user true "alice" "correct horse" = Some "access-1")
    as H by reflexivity.
  assert (guest_session !! "user_token" = None) as Ht by reflexivity.
  assert (guest_session !! "username" = None) as Hn by reflexivity.
  split; [exact H|]. split; [exact Ht|]. split; [exact Hn|].
  exact (login_then_logout_restores one_user true "alice" "correct horse"
           "access-1" guest_session H Ht Hn).
Defined.

Lemma refresh_after_login_does_nothing_witness :
  let s' := final_state (render_login_form one_user true "alice" "correct horse"
                           guest_session) in
  login_accepted one_user true "alice" "correct horse" = Some "access-1" /\
  guest_session !! "refresh_token" = None /\
  refresh_token refresh_accepted s' = Ret false s'.
Proof.
  intros s'.
  assert (login_accepted one_user true "alice" "correct horse" = Some "access-1")
    as H by reflexivity.
  assert (guest_session !! "refresh_token" = None) as Hn by reflexivity.
  split; [exact H|]. split; [exact Hn|].
  exact (refresh_after_login_does_nothing refresh_accepted one_user true "alice"
           "correct horse" "access-1" guest_session H Hn).
Defined.

Lemma accepted_refresh_logs_out_witness :
  let s := refreshable_session in
  let s' := final_state (refresh_token refresh_accepted s) in
  s !! "refresh_token" = Some (VStr "stale-refresh-token") /\
  refresh_accepted (VStr "stale-refresh-token")
    = Cognito.AuthenticationResult "access-2" 3600 /\
  is_authenticated s = Ret true s /\
  is_authenticated s' = Ret false s'.
Proof.
  intros s s'.
  assert (s !! "refresh_token" = Some (VStr "stale-refresh-token")) as H1
    by reflexivity.
  assert (refresh_accepted (VStr "stale-refresh-token")
          = Cognito.AuthenticationResult "access-2" 3600) as H2 by reflexivity.
  split; [exact H1|]. split; [exact H2|]. split; [vm_compute; reflexivity|].
  exact (proj2 (accepted_refresh_logs_out refresh_accepted _ "access-2" 3600 s
                  H1 eq_refl H2)).
Defined.

End AuthenticationMore.

(** ** The chat API client, continued *)

Module ApiClientMore.
Import ApiClient.
Section ApiClientMore.
Variable settings : Settings.
Variable post : Request -> PostResult.
Variable get : HistoryRequest -> GetResult.

Local Abbreviation rate_limit_message := "Rate limit exceeded. Please try again later.".


(** X20. The request headers carry the access token exactly when the
    session is authenticated, and then it is the stored token; the
    session header is the stored identifier, or empty. *)
Theorem headers_carry_token_iff_authenticated (s : session_state) :
  exists h,
    _get_headers settings s = Ret h s /\
    Authentication.is_authenticated s = Ret (bool_decide (is_Some (Authorization h))) s /\
    (forall token, Authorization h = Some token -> s !! "user_token" = Some token) /\
    X_Session_ID h = default (VStr "") (s !! "session_id").
Proof.
  eexists. split; [reflexivity|]. simpl.
  unfold Authentication.is_authenticated, bind, get_default, ret.
  destruct (s !! "user_token") as [token|] eqn:Htoken; simpl.
  - destruct (truthy token); simpl; repeat split; congruence.
  - repeat split; congruence.
Qed.



End ApiClientMore.
End ApiClientMore.

(** ** Validating a message *)

Module ValidatorsMore.
Import Validators.

Lemma append_cons x (a b : string) : String x a +:+ b = String x (a +:+ b).
Proof. reflexivity. Qed.

Lemma append_nil_l (b : string) : "" +:+ b = b.
Proof. reflexivity. Qed.

Ltac unfold_append := rewrite ?append_cons, ?append_nil_l.

Lemma append_assoc (a b c : string) : (a +:+ b) +:+ c = a +:+ (b +:+ c).
Proof. induction a as [|x a IH]; unfold_append; [done|by rewrite IH]. Qed.

Lemma append_empty (a : string) : a +:+ "" = a.
Proof. induction a as [|x a IH]; unfold_append; [done|by rewrite IH]. Qed.

Lemma has_char_app c (a b : string) :
  has_char c (a +:+ b) = has_char c a || has_char c b.
Proof.
  induction a as [|x a IH]; unfold_append; simpl; [done|].
  rewrite IH. by rewrite orb_assoc.
Qed.

(** Replacing a character removes it, when the replacement is free of
    it. *)
Lemma replace_char_removes c by_ (s : string) :
  has_char c by_ = false -> has_char c (replace_char c by_ s) = false.
Proof.
  intros Hby. induction s as [|d s IH]; simpl; [done|].
  rewrite has_char_app, IH, orb_false_r.
  destruct (Ascii.eqb c d) eqn:Hcd; [done|]. simpl. by rewrite Hcd.
Qed.

(** Replacing one character brings in no other, when the replacement is
    free of that one. *)
Lemma replace_char_keeps_out c d by_ (s : string) :
  has_char d by_ = false -> has_char d s = false ->
  has_char d (replace_char c by_ s) = false.
Proof.
  intros Hby. induction s as [|x s IH]; simpl; [done|].
  intros [Hdx Hs]%orb_false_elim.
  rewrite has_char_app, IH, orb_false_r by done.
  destruct (Ascii.eqb c x); [done|]. simpl. by rewrite Hdx.
Qed.

(** X23. A message that passes [validate_message] has no angle bracket
    left: every [<] and [>] of the input was replaced by its entity. *)
Theorem validated_message_has_no_angle_brackets (message result : string) :
  validate_message message = inr result ->
  has_char "<" result = false /\ has_char ">" result = false.
Proof.
  unfold validate_message.
  destruct (String.eqb (strip message) ""); [discriminate|].
  destruct (2000 <? String.length (strip message))%nat; [discriminate|].
  destruct (existsb _ dangerous_patterns); [discriminate|].
  intros [= <-]. split.
  - apply replace_char_keeps_out; [done|]. by apply replace_char_removes.
  - by apply replace_char_removes.
Qed.

Lemma rev_app_spec (a b : string) : String.rev_app a b = String.rev a +:+ b.
Proof.
  revert b. induction a as [|x a IH]; intros b; [done|].
  unfold String.rev. simpl. rewrite (IH (String x b)), (IH (String x "")).
  by rewrite append_assoc.
Qed.

Lemma rev_append (a b : string) :
  String.rev (a +:+ b) = String.rev b +:+ String.rev a.
Proof.
  induction a as [|x a IH]; unfold_append.
  - by rewrite append_empty.
  - unfold String.rev in *. simpl.
    rewrite (rev_app_spec (a +:+ b)), (rev_app_spec a). unfold String.rev.
    by rewrite IH, append_assoc.
Qed.


Lemma all_space_app (a b : string) :
  all_space (a +:+ b) = all_space a && all_space b.
Proof.
  induction a as [|x a IH]; unfold_append; simpl; [done|].
  by rewrite IH, andb_assoc.
Qed.

Lemma all_space_rev (a : string) : all_space (String.rev a) = all_space a.
Proof.
  induction a as [|x a IH]; [done|].
  unfold String.rev. simpl. rewrite rev_app_spec, all_space_app, IH. simpl.
  by rewrite andb_true_r, andb_comm.
Qed.

Lemma lstrip_all_space (a : string) : all_space a = true -> lstrip a = "".
Proof.
  induction a as [|x a IH]; simpl; [done|].
  intros [Hx Ha]%andb_true_iff. rewrite Hx. by apply IH.
Qed.


Lemma lstrip_padding (a m : string) :
  all_space a = true -> lstrip (a +:+ m) = lstrip m.
Proof.
  induction a as [|x a IH]; unfold_append; simpl; [done|].
  intros [Hx Ha]%andb_true_iff. rewrite Hx. by apply IH.
Qed.

(** Appending to a string that does not strip to nothing. *)
Lemma lstrip_append (m b : string) :
  lstrip (m +:+ b) = if String.eqb (lstrip m) "" then lstrip b else lstrip m +:+ b.
Proof.
  induction m as [|x m IH]; unfold_append; simpl; [done|].
  destruct (is_space x); [done|]. reflexivity.
Qed.



(** White space around a message does not count. *)
Lemma strip_padding (a m b : string) :
  all_space a = true -> all_space b = true ->
  strip (a +:+ m +:+ b) = strip m.
Proof.
  intros Ha Hb. unfold strip. rewrite lstrip_padding by done.
  rewrite lstrip_append.
  destruct (String.eqb_spec (lstrip m) "") as [Hm|Hm].
  - rewrite Hm, (lstrip_all_space b) by done. reflexivity.
  - rewrite rev_append, (lstrip_padding (String.rev b)); [done|].
    by rewrite all_space_rev.
Qed.


(** X25. White space before and after a message does not change what
    [validate_message] makes of it. *)
Theorem padding_is_ignored (before message after : string) :
  all_space before = true -> all_space after = true ->
  validate_message (before +:+ message +:+ after) = validate_message message.
Proof.
  intros Ha Hb. unfold validate_message. by rewrite strip_padding.
Qed.

Lemma validated_message_has_no_angle_brackets_witness :
  validate_message "<b>2 > 1</b>" = inr "&lt;b&gt;2 &gt; 1&lt;/b&gt;" /\
  has_char "<" "&lt;b&gt;2 &gt; 1&lt;/b&gt;" = false /\
  has_char ">" "&lt;b&gt;2 &gt; 1&lt;/b&gt;" = false.
Proof.
  assert (validate_message "<b>2 > 1</b>" = inr "&lt;b&gt;2 &gt; 1&lt;/b&gt;") as H
    by reflexivity.
  split; [exact H|].
  exact (validated_message_has_no_angle_brackets _ _ H).
Defined.

Lemma padding_is_ignored_witness :
  all_space "  " = true /\ all_space " " = true /\
  validate_message ("  " +:+ "hello there" +:+ " ") = validate_message "hello there".
Proof.
  assert (all_space "  " = true) as Ha by reflexivity.
  assert (all_space " " = true) as Hb by reflexivity.
  split; [exact Ha|]. split; [exact Hb|].
  exact (padding_is_ignored "  " "hello there" " " Ha Hb).
Defined.

End ValidatorsMore.
